(** * mnist-demo: the freehand-drawing-to-model-input glue of [index.js]

    A shallow embedding of the canvas handlers registered with
    [ui.setCanvasInput] and of the three button callbacks, followed by the
    properties of the drawing pipeline that the specification states.

    JavaScript numbers are IEEE 754 binary64 values: they are modelled by the
    kernel's primitive floats, so that [data[i + 3] / 255] is the very
    division the browser performs.  A [Uint8ClampedArray] is a list of bytes;
    a plain JS array is a list of slots, a slot being either a value or a hole;
    a read past the end of either gives [undefined], modelled by [None]. *)

From Stdlib Require Import ZArith Floats Uint63.
From Stdlib.Strings Require Import Byte.
From stdpp Require Import base list strings gmap.

Set Default Proof Using "Type".

(** ** JavaScript values used by the tensor encoder *)

Module Js.

(** A number read out of a [Uint8ClampedArray]: the byte as a binary64. *)
Definition of_byte (b : byte) : float :=
  PrimFloat.of_uint63 (Uint63.of_Z (Z.of_N (Byte.to_N b))).

(** [v / 255] where [v] is the result of an indexed read of a typed array:
    [undefined / 255] is [NaN]. *)
Definition div255 (v : option byte) : float :=
  match v with
  | Some b => PrimFloat.div (of_byte b) 255%float
  | None => PrimFloat.nan
  end.

(** [a[k] = v] on a plain array: an index inside the array overwrites the
    slot, an index at or past the length extends the array, the skipped
    slots being holes. *)
Definition store {A} (a : list (option A)) (k : nat) (v : A) : list (option A) :=
  if decide (k < length a) then <[k := Some v]> a
  else a ++ replicate (k - length a) None ++ [Some v].

(** The closed unit interval on binary64 ([NaN] is outside). *)
Definition in_unit (x : float) : bool :=
  PrimFloat.leb 0%float x && PrimFloat.leb x 1%float.

End Js.

(** ** Tensor encoder ([deactivateDrawAndPredict], the loop over [data]) *)

(** [for (let i = 0, len = data.length; i < len; i += 4)
      input[i / 4] = data[i + 3] / 255]
    The loop variable only takes multiples of four, so [i / 4] is the integer
    quotient.  [None] is returned when the fuel runs out before [i < len]
    fails. *)
Fixpoint encode_loop (fuel : nat) (data : list byte) (len i : nat)
    (input : list (option float)) : option (list (option float)) :=
  if decide (i < len) then
    match fuel with
    | O => None
    | S fuel' =>
        encode_loop fuel' data len (i + 4)
          (Js.store input (i / 4) (Js.div255 (data !! (i + 3))))
    end
  else Some input.

(** [let input = []; for (...) {...}]: [data.length] steps of fuel are always
    enough, see [encode_total]. *)
Definition encode (data : list byte) : option (list (option float)) :=
  encode_loop (length data) data (length data) 0 [].

(** ** Data of the page *)

(** What a call can end in: a value or an exception. *)
Inductive JsError : Type :=
| TypeError (msg : string)
| Error (msg : string).

Inductive completion (A : Type) : Type :=
| Normal (a : A)
| Abrupt (e : JsError).
Arguments Normal {A} a.
Arguments Abrupt {A} e.

(** What a statement of the model can end in: a value, an exception, or a
    loop that used up its fuel. *)
Inductive outcome (A : Type) : Type :=
| Returned (a : A)
| Thrown (e : JsError)
| OutOfFuel.
Arguments Returned {A} a.
Arguments Thrown {A} e.
Arguments OutOfFuel {A}.

(** [ImageData]: [{data, width, height}], [data] a [Uint8ClampedArray] of
    RGBA samples. *)
Record ImageData : Type := mkImageData {
  img_data : list byte;
  img_width : nat;
  img_height : nat
}.

(** The values given to [tf.tensor4d], with the requested shape. *)
Record Tensor : Type := mkTensor {
  values : list (option float);
  shape : list nat
}.

(** The layer stacks of [createConvModel] and [createDenseModel]. *)
Inductive Activation : Type := relu | softmax.

Inductive Layer : Type :=
| conv2d (inputShape : option (list nat)) (kernelSize filters : nat) (activation : Activation)
| maxPooling2d (poolSize strides : nat)
| flatten (inputShape : option (list nat))
| dense (units : nat) (activation : Activation).

(** A [tf.Model] handle: its layers, and whether [train] has fitted it. *)
Record Model : Type := mkModel {
  layers : list Layer;
  trained : bool
}.

(** The three canvases of the page, by element id. *)
Inductive CanvasId : Type :=
| input_canvas               (* 'input-canvas' *)
| input_canvas_centercrop    (* 'input-canvas-centercrop' *)
| input_canvas_scaled.       (* 'input-canvas-scaled' *)

Section Page.

(** [mathUtils.getCoordinates] is not part of [index.js]: what it returns is
    kept abstract, and so is the DOM event it reads. *)
Context {Point PointerEvent : Type}.

(** What the handlers ask of a 2D context, in the order they ask it. *)
Inductive Cmd : Type :=
| SetLineWidth (w : nat)
| SetLineJoin (s : string)
| SetLineCap (s : string)
| SetStrokeStyle (s : string)
| ClearRect (x y w h : nat)
| BeginPath
| MoveTo (p : Point)
| QuadraticCurveTo (cp ep : Point)
| LineTo (p : Point)
| Stroke
| PutImageData (img : ImageData) (x y : nat)
| SaveState
| Scale (sx sy : float)
| DrawImage (src : CanvasId) (x y : nat)
| RestoreState.

(** A canvas element: its size and what was drawn on it since it was last
    reset.  The pixels are the browser's business, see [getImageData]. *)
Record Canvas : Type := mkCanvas {
  cv_width : nat;
  cv_height : nat;
  cv_ops : list Cmd
}.

Record Dom : Type := mkDom {
  cv_input : Canvas;
  cv_centercrop : Canvas;
  cv_scaled : Canvas
}.

Definition getElementById (d : Dom) (id : CanvasId) : Canvas :=
  match id with
  | input_canvas => cv_input d
  | input_canvas_centercrop => cv_centercrop d
  | input_canvas_scaled => cv_scaled d
  end.

Definition setElement (d : Dom) (id : CanvasId) (c : Canvas) : Dom :=
  match id with
  | input_canvas => mkDom c (cv_centercrop d) (cv_scaled d)
  | input_canvas_centercrop => mkDom (cv_input d) c (cv_scaled d)
  | input_canvas_scaled => mkDom (cv_input d) (cv_centercrop d) c
  end.

(** Calls that leave the page: to the UI module, the console, the ML runtime
    and its model store.  The trace lists them oldest first. *)
Inductive Call : Type :=
| LogStatus (s : string)
| ConsoleLog (n : nat)
| LoadMnistData
| ModelSummary (m : Model)
| Train (m : Model)
| LoadModel (key : string)
| SaveModel (key : string) (m : Model)
| Predict (m : Model) (x : Tensor)
| UpdatePredict (out : list float)
| ShowTestResults (out : list float)
| Uncaught (e : JsError).

(** [const canvas_store = {strokes: [], drawing: false}] *)
Record CanvasStore : Type := mkCanvasStore {
  strokes : list (list Point);
  drawing : bool
}.

(** Everything the handlers read or write. *)
Record World : Type := mkWorld {
  canvas_store : CanvasStore;
  model : option Model;            (* [let model;] *)
  data : bool;                     (* [let data;]: set once [load()] ran *)
  dom : Dom;
  modelTypeId : string;            (* the selector read by [ui.getModelTypeId] *)
  indexeddb : gmap string Model;   (* the store behind [save] and [loadModel] *)
  trace : list Call
}.

(** What [index.js] imports and calls without defining. *)
Record Env : Type := mkEnv {
  IMAGE_H : nat;
  IMAGE_W : nat;
  getCoordinates : PointerEvent -> Point;
  (* [mathUtils.getMidpoint] on two recorded points *)
  getMidpoint : Point -> Point -> Point;
  centerCrop : ImageData -> completion ImageData;
  (* [ctx.getImageData(0, 0, ctx.canvas.width, ctx.canvas.height)]: the
     browser's rendering of a canvas *)
  getImageData : Dom -> CanvasId -> completion ImageData;
  (* [model.predict(x)] followed by [output.data()] *)
  predict : Model -> Tensor -> completion (list float);
  (* [data.getTestData(n).xs] *)
  getTestData : nat -> Tensor
}.

(** ** Statements: state, exceptions, calls *)

(** A statement runs in a world and ends in an outcome; the writes it made
    before throwing stay. *)
Definition M (A : Type) : Type := World -> outcome A * World.

Definition ret {A} (a : A) : M A := fun w => (Returned a, w).

Definition bind {A B} (m : M A) (k : A -> M B) : M B := fun w =>
  match m w with
  | (Returned a, w') => k a w'
  | (Thrown e, w') => (Thrown e, w')
  | (OutOfFuel, w') => (OutOfFuel, w')
  end.

#[global] Instance M_ret : MRet M := @ret.
#[global] Instance M_bind : MBind M := fun A B k m => bind m k.

Definition set_canvas_store (cs : CanvasStore) (w : World) : World :=
  mkWorld cs (model w) (data w) (dom w) (modelTypeId w) (indexeddb w) (trace w).
Definition set_model (m : option Model) (w : World) : World :=
  mkWorld (canvas_store w) m (data w) (dom w) (modelTypeId w) (indexeddb w) (trace w).
Definition set_data (b : bool) (w : World) : World :=
  mkWorld (canvas_store w) (model w) b (dom w) (modelTypeId w) (indexeddb w) (trace w).
Definition set_dom (d : Dom) (w : World) : World :=
  mkWorld (canvas_store w) (model w) (data w) d (modelTypeId w) (indexeddb w) (trace w).
Definition set_indexeddb (db : gmap string Model) (w : World) : World :=
  mkWorld (canvas_store w) (model w) (data w) (dom w) (modelTypeId w) db (trace w).
Definition set_trace (t : list Call) (w : World) : World :=
  mkWorld (canvas_store w) (model w) (data w) (dom w) (modelTypeId w) (indexeddb w) t.

Definition throw {A} (e : JsError) : M A := fun w => (Thrown e, w).

(** [try { body } catch (e) { handler }] *)
Definition try_catch {A} (body : M A) (handler : JsError -> M A) : M A := fun w =>
  match body w with
  | (Thrown e, w') => handler e w'
  | r => r
  end.

(** A call to an [async] function whose promise nobody awaits, or a handler
    run by the event loop: an exception does not reach the caller, the console
    reports it. *)
Definition detached (m : M unit) : M unit := fun w =>
  match m w with
  | (Thrown e, w') => (Returned tt, set_trace (trace w' ++ [Uncaught e]) w')
  | r => r
  end.

Definition gets {A} (f : World -> A) : M A := fun w => (Returned (f w), w).
Definition modify (f : World -> World) : M unit := fun w => (Returned tt, f w).
Definition out_of_fuel {A} : M A := fun w => (OutOfFuel, w).

(** The result of a call into the browser, a helper module or the runtime. *)
Definition lift {A} (c : completion A) : M A := fun w =>
  match c with
  | Normal a => (Returned a, w)
  | Abrupt e => (Thrown e, w)
  end.

(** [canvas_store.drawing = b] and [canvas_store.strokes = ss] *)
Definition with_drawing (b : bool) (w : World) : World :=
  set_canvas_store (mkCanvasStore (strokes (canvas_store w)) b) w.
Definition with_strokes (ss : list (list Point)) (w : World) : World :=
  set_canvas_store (mkCanvasStore ss (drawing (canvas_store w))) w.
Definition set_drawing (b : bool) : M unit := modify (with_drawing b).
Definition set_strokes (ss : list (list Point)) : M unit := modify (with_strokes ss).

(** A call that leaves the page is appended to the trace. *)
Definition called (cs : list Call) (w : World) : World :=
  set_trace (trace w ++ cs) w.
Definition call (c : Call) : M unit := modify (called [c]).

(** The world after the commands [cmds] were given to the context of [id]. *)
Definition emit (id : CanvasId) (cmds : list Cmd) (w : World) : World :=
  let cv := getElementById (dom w) id in
  set_dom (setElement (dom w) id
             (mkCanvas (cv_width cv) (cv_height cv) (cv_ops cv ++ cmds))) w.

(** [document.getElementById(id).getContext('2d').<cmd>] *)
Definition ctx (id : CanvasId) (c : Cmd) : M unit := modify (emit id [c]).

(** [canvas.width = n] and [canvas.height = n]: either assignment resets the
    canvas. *)
Definition resized_width (id : CanvasId) (n : nat) (w : World) : World :=
  set_dom (setElement (dom w) id
             (mkCanvas n (cv_height (getElementById (dom w) id)) [])) w.
Definition resized_height (id : CanvasId) (n : nat) (w : World) : World :=
  set_dom (setElement (dom w) id
             (mkCanvas (cv_width (getElementById (dom w) id)) n [])) w.
Definition set_canvas_width (id : CanvasId) (n : nat) : M unit :=
  modify (resized_width id n).
Definition set_canvas_height (id : CanvasId) (n : nat) : M unit :=
  modify (resized_height id n).

(** [for (init; cond; step) body], the step being the end of [body]. *)
Fixpoint while {St} (fuel : nat) (cond : St -> bool) (body : St -> M St) (s : St) : M St :=
  if cond s then
    match fuel with
    | O => out_of_fuel
    | S fuel' => s' ← body s; while fuel' cond body s'
    end
  else mret s.

(** ** The canvas handlers given to [ui.setCanvasInput] *)

Context (env : Env).

(** [function activateDraw(e)] *)
Definition activateDraw (e : PointerEvent) : M unit :=
  set_drawing true;;
  ss ← gets (fun w => strokes (canvas_store w));
  set_strokes (ss ++ [[getCoordinates env e]]).

(** [...p]: spreading [undefined] throws. *)
Definition spread (p : option Point) : M Point :=
  match p with
  | Some a => mret a
  | None => throw (TypeError "undefined is not iterable")
  end.

(** [mathUtils.getMidpoint(p1, p2)].  What the helper does with an [undefined]
    argument is not known here; taking it to throw is the choice under which
    the least can be said of [draw]. *)
Definition call_getMidpoint (p1 p2 : option Point) : M Point :=
  match p1, p2 with
  | Some a, Some b => mret (getMidpoint env a b)
  | _, _ => throw (TypeError "getMidpoint of undefined")
  end.

(** The body of [for (let i = 1, len = points.length; i < len; i++)], on the
    loop's variables [(i, p1, p2)]. *)
Definition curve_step (points : list Point)
    (s : nat * option Point * option Point) : M (nat * option Point * option Point) :=
  let '(i, p1, p2) := s in
  cp ← spread p1;
  ep ← call_getMidpoint p1 p2;
  ctx input_canvas (QuadraticCurveTo cp ep);;
  mret (i + 1, points !! i, points !! (i + 1)).

(** The body of [for (let s = 0, slen = ...; s < slen; s++)] on
    [points = canvas_store.strokes[s]]. *)
Definition draw_stroke (stroke : option (list Point)) : M unit :=
  points ← match stroke with
           | Some l => mret l
           | None => throw (TypeError "cannot read properties of undefined")
           end;
  let p1 := points !! 0 in
  let p2 := points !! 1 in
  ctx input_canvas BeginPath;;
  a ← spread p1;
  ctx input_canvas (MoveTo a);;
  s ← while (length points)
        (fun s => bool_decide (s.1.1 < length points))
        (curve_step points) (1, p1, p2);
  b ← spread s.1.2;
  ctx input_canvas (LineTo b);;
  ctx input_canvas Stroke.

(** [function draw(e)] *)
Definition draw (e : PointerEvent) : M unit :=
  d ← gets (fun w => drawing (canvas_store w));
  if negb d then mret tt else
  ctx input_canvas (SetLineWidth 20);;
  ctx input_canvas (SetLineCap "round");;
  ctx input_canvas (SetLineJoin "round");;
  ctx input_canvas (SetStrokeStyle "#393E46");;
  cv ← gets (fun w => cv_input (dom w));
  ctx input_canvas (ClearRect 0 0 (cv_width cv) (cv_height cv));;
  ss ← gets (fun w => strokes (canvas_store w));
  (* [strokes[strokes.length - 1]]: on an empty array both [strokes[-1]] and
     the [ss !! 0] written here are [undefined] *)
  points ← match ss !! (length ss - 1) with
           | Some l => mret l
           | None => throw (TypeError "cannot read properties of undefined")
           end;
  (* [points.push(...)] writes into the array held by [strokes] *)
  set_strokes (<[length ss - 1 := points ++ [getCoordinates env e]]> ss);;
  slen ← gets (fun w => length (strokes (canvas_store w)));
  while slen (fun s => bool_decide (s < slen))
    (fun s =>
       stroke ← gets (fun w => strokes (canvas_store w) !! s);
       draw_stroke stroke;;
       mret (s + 1)) 0;;
  mret tt.

(** [function clear()] *)
Definition clear : M unit :=
  cv ← gets (fun w => cv_input (dom w));
  ctx input_canvas (ClearRect 0 0 (cv_width cv) (cv_height cv));;
  cv ← gets (fun w => cv_centercrop (dom w));
  ctx input_canvas_centercrop (ClearRect 0 0 (cv_width cv) (cv_height cv));;
  cv ← gets (fun w => cv_scaled (dom w));
  ctx input_canvas_scaled (ClearRect 0 0 (cv_width cv) (cv_height cv));;
  set_strokes [];;
  set_drawing false.

(** A canvas size as a JS number. *)
Definition number_of_nat (n : nat) : float :=
  PrimFloat.of_uint63 (Uint63.of_Z (Z.of_nat n)).

(** [tf.tensor4d(values, shape)]: the runtime refuses values whose count is
    not the product of the shape. *)
Definition tensor4d (vals : list (option float)) (shp : list nat) : completion Tensor :=
  if decide (length vals = foldr Nat.mul 1 shp)
  then Normal (mkTensor vals shp)
  else Abrupt (Error "the values do not match the shape").

(** [model.predict(x)] on the global [model]: reading a property of
    [undefined] throws before anything is called. *)
Definition model_predict (x : Tensor) : M (list float) :=
  m ← gets model;
  match m with
  | None => throw (TypeError "cannot read properties of undefined (reading 'predict')")
  | Some m => call (Predict m x);; lift (predict env m x)
  end.

(** [ctx.getImageData(0, 0, ctx.canvas.width, ctx.canvas.height)] on the
    canvas [id] as it is now. *)
Definition ctx_getImageData (id : CanvasId) : M ImageData :=
  fun w => lift (getImageData env (dom w) id) w.

(** [async function deactivateDrawAndPredict(e)], the function handed to
    [_.debounce].  Nothing is awaited before [model.predict], and what follows
    the [await]s touches no state of the page, so the body is run in one go. *)
Definition deactivateDrawAndPredict (e : PointerEvent) : M unit :=
  d ← gets (fun w => drawing (canvas_store w));
  if negb d then mret tt else
  set_drawing false;;
  (* center crop *)
  img ← ctx_getImageData input_canvas;
  imageDataCenterCrop ← lift (centerCrop env img);
  set_canvas_width input_canvas_centercrop (img_width imageDataCenterCrop);;
  set_canvas_height input_canvas_centercrop (img_height imageDataCenterCrop);;
  ctx input_canvas_centercrop (PutImageData imageDataCenterCrop 0 0);;
  (* scaled to 28 x 28 *)
  cc ← gets (fun w => cv_centercrop (dom w));
  ctx input_canvas_scaled SaveState;;
  ctx input_canvas_scaled
    (Scale (PrimFloat.div 28%float (number_of_nat (cv_width cc)))
           (PrimFloat.div 28%float (number_of_nat (cv_height cc))));;
  ctx input_canvas_scaled (ClearRect 0 0 (cv_width cc) (cv_height cc));;
  ctx input_canvas_scaled (DrawImage input_canvas_centercrop 0 0);;
  imageDataScaled ← ctx_getImageData input_canvas_scaled;
  ctx input_canvas_scaled RestoreState;;
  (* process image data for model input *)
  input ← match encode (img_data imageDataScaled) with
          | Some input => mret input
          | None => out_of_fuel
          end;
  input ← lift (tensor4d input [1; 28; 28; 1]);
  out ← model_predict input;
  call (UpdatePredict out).

(** ** Models and the button callbacks

    A callback is run in one go: what other events do between its [await]s is
    not modelled. *)

(** [function createConvModel()] *)
Definition createConvModel : Model :=
  mkModel
    [ conv2d (Some [IMAGE_H env; IMAGE_W env; 1]) 3 16 relu;
      maxPooling2d 2 2;
      conv2d None 3 32 relu;
      maxPooling2d 2 2;
      conv2d None 3 32 relu;
      flatten None;
      dense 64 relu;
      dense 10 softmax ]
    false.

(** [function createDenseModel()] *)
Definition createDenseModel : Model :=
  mkModel
    [ flatten (Some [IMAGE_H env; IMAGE_W env; 1]);
      dense 42 relu;
      dense 10 softmax ]
    false.

(** [function createModel()] *)
Definition createModel : M Model :=
  modelType ← gets modelTypeId;
  if decide (modelType = "ConvNet") then mret createConvModel
  else if decide (modelType = "DenseNet") then mret createDenseModel
  else throw (Error ("Invalid model type: " +:+ modelType)).

(** [async function load()]: the download itself is taken to succeed. *)
Definition load : M unit :=
  call LoadMnistData;;
  modify (set_data true).

(** [model.summary()] on the global [model]. *)
Definition model_summary : M unit :=
  m ← gets model;
  match m with
  | None => throw (TypeError "cannot read properties of undefined (reading 'summary')")
  | Some m => call (ModelSummary m)
  end.

(** [await train(model)], always called on the object the global [model]
    refers to: [compile] and [fit] change that object in place.  The fit is
    taken to succeed, and the progress and accuracy messages of [train] are
    left out of the trace. *)
Definition train : M unit :=
  call (LogStatus "Training model...");;
  m ← gets model;
  d ← gets data;
  match m with
  | None => throw (TypeError "cannot read properties of undefined (reading 'compile')")
  | Some m =>
      if d : bool then
        call (Train m);;
        modify (set_model (Some (mkModel (layers m) true)))
      else throw (TypeError "cannot read properties of undefined (reading 'getTrainData')")
  end.

(** The model store with [m] under [key]. *)
Definition stored (key : string) (m : Model) (w : World) : World :=
  set_indexeddb (<[key := m]> (indexeddb w)) w.

(** [await model.save(key)] *)
Definition model_save (key : string) : M unit :=
  m ← gets model;
  match m with
  | None => throw (TypeError "cannot read properties of undefined (reading 'save')")
  | Some m =>
      call (SaveModel key m);;
      modify (stored key m)
  end.

(** [await tf.loadModel(key)]: fails when nothing is stored under [key]. *)
Definition loadModel (key : string) : M Model :=
  call (LoadModel key);;
  db ← gets indexeddb;
  match db !! key with
  | Some m => mret m
  | None => throw (Error ("Cannot find model with path " +:+ key))
  end.

(** [async function showPredictions(model)], on the value of the global
    [model] at the call; what is shown is the raw output. *)
Definition showPredictions : M unit :=
  m ← gets model;
  d ← gets data;
  if d : bool then
    match m with
    | None => throw (TypeError "cannot read properties of undefined (reading 'predict')")
    | Some m =>
        call (Predict m (getTestData env 100));;
        out ← lift (predict env m (getTestData env 100));
        call (ShowTestResults out)
    end
  else throw (TypeError "cannot read properties of undefined (reading 'getTestData')").

(** [ui.setTrainButtonCallback(async () => {...})] *)
Definition trainButtonCallback : M unit :=
  call (LogStatus "Loading MNIST data...");;
  load;;
  modelType ← gets modelTypeId;
  call (LogStatus "Creating model...");;
  m ← createModel;
  modify (set_model (Some m));;
  model_summary;;
  call (LogStatus "Starting model training...");;
  train;;
  (if decide (modelType = "ConvNet")
   then call (ConsoleLog 1);; model_save "indexeddb://my-model-1"
   else call (ConsoleLog 2);; model_save "indexeddb://my-model-2");;
  detached showPredictions.

(** [ui.setLoadButtonCallback(async () => {...})] *)
Definition loadButtonCallback : M unit :=
  call (LogStatus "Loading MNIST data...");;
  load;;
  call (LogStatus "Creating model...");;
  try_catch
    (modelType ← gets modelTypeId;
     cache ← (if decide (modelType = "ConvNet")
              then call (ConsoleLog 1);; loadModel "indexeddb://my-model-1"
              else call (ConsoleLog 2);; loadModel "indexeddb://my-model-2");
     modify (set_model (Some cache));;
     model_summary)
    (fun _ =>
       m ← createModel;
       modify (set_model (Some m));;
       model_summary;;
       call (LogStatus "Starting model training...");;
       train;;
       model_save "indexeddb://my-model-1";;
       detached showPredictions).

(** [ui.setPredictButtonCallback(async () => { showPredictions(model); })] *)
Definition predictButtonCallback : M unit :=
  detached showPredictions.

(** ** The debounced pointer-up and the event loop *)

(** Modelled from the spec: [ui.setCanvasInput] belongs to the UI module,
    which is not under src/.  The spec says which events it binds the four
    functions to: "pointer-down starts a stroke, pointer-move appends points
    and triggers redraw, pointer-up (debounced) triggers crop, resample,
    encode, inference", and an explicit clear. *)
Inductive Input : Type :=
| PointerDown (e : PointerEvent)
| PointerMove (e : PointerEvent)
| PointerUp (e : PointerEvent)
| ClearButton.

(** Modelled from the spec: the state of [_.debounce], which is lodash's and
    not under src/.  The page between two events is its world and the pending
    invocation of the debounced handler, with the time it is due, in
    milliseconds, and the event it will get. *)
Record Page : Type := mkPage {
  world : World;
  pending : option (Z * PointerEvent)
}.

(** The second argument of [_.debounce(..., 200)]. *)
Definition debounce_wait : Z := 200.

(** A handler run by the event loop or by a timer: its result is dropped. *)
Definition run_handler (m : M unit) (w : World) : World := (detached m w).2.

(** Modelled from the spec: the clock reaches [t].  The debounced action is
    delayed "until a quiet period has elapsed since the last triggering
    event": a pending invocation that is due runs, once. *)
Definition advance (t : Z) (p : Page) : Page :=
  match pending p with
  | Some (due, e) =>
      if decide (due ≤ t)%Z
      then mkPage (run_handler (deactivateDrawAndPredict e) (world p)) None
      else p
  | None => p
  end.

(** Modelled from the spec: an event arrives at time [ti.1].  "A new debounce
    window restarts the timer on every pointer-up, superseding any pending
    scheduled inference"; the other events run their handler at once. *)
Definition dispatch (p : Page) (ti : Z * Input) : Page :=
  let p := advance ti.1 p in
  match ti.2 with
  | PointerDown e => mkPage (run_handler (activateDraw e) (world p)) (pending p)
  | PointerMove e => mkPage (run_handler (draw e) (world p)) (pending p)
  | PointerUp e => mkPage (world p) (Some (ti.1 + debounce_wait, e)%Z)
  | ClearButton => mkPage (run_handler clear (world p)) (pending p)
  end.

Definition run_inputs (p : Page) (l : list (Z * Input)) : Page :=
  foldl dispatch p l.

End Page.

Arguments Cmd : clear implicits.
Arguments Canvas : clear implicits.
Arguments Dom : clear implicits.
Arguments CanvasStore : clear implicits.
Arguments World : clear implicits.
Arguments Env : clear implicits.
Arguments Input : clear implicits.
Arguments Page : clear implicits.
Arguments M : clear implicits.

(** ** Reading an [ImageData] *)

(** The alpha sample of the [k]-th pixel of a flat RGBA buffer. *)
Definition pixel_alpha (data : list byte) (k : nat) : option byte :=
  data !! (4 * k + 3).

(** The alpha sample of the pixel in column [x] of row [y]: an [ImageData]
    stores its rows one after the other, four samples a pixel. *)
Definition alpha_at (img : ImageData) (x y : nat) : option byte :=
  pixel_alpha (img_data img) (y * img_width img + x).

(** A 28 x 28 RGBA raster. *)
Definition raster28 (img : ImageData) : Prop :=
  img_width img = 28 ∧ img_height img = 28 ∧ length (img_data img) = 4 * 28 * 28.

(** The encoder as the specification words it: one number a pixel, the pixel's
    alpha over 255, in the order of the pixels. *)
Definition alpha_vector (data : list byte) : list (option float) :=
  map (fun k => Some (Js.div255 (pixel_alpha data k)))
      (seq 0 ((length data + 3) / 4)).

(** A raster of [w] by [h] pixels that all hold the same four samples. *)
Definition uniform_raster (w h : nat) (r g b a : byte) : ImageData :=
  mkImageData (concat (replicate (w * h) [r; g; b; a])) w h.

(** ** Vocabulary of the statements *)

Section Vocabulary.

Context {Point PointerEvent : Type} (env : Env Point PointerEvent).

(** The smoothed curve as the specification words it: one quadratic segment
    for each point that has a successor, in the order of the points, with the
    point as control point and the midpoint to its successor as end point. *)
Definition curve_segments (points : list Point) : list (Cmd Point) :=
  zip_with (fun current next => QuadraticCurveTo current (getMidpoint env current next))
    points (tail points).

(** The path of the stroke [q :: rest]: the segments, then a line to its last
    point. *)
Definition stroke_path (q : Point) (rest : list Point) : list (Cmd Point) :=
  [BeginPath; MoveTo q] ++ curve_segments (q :: rest)
    ++ [LineTo (List.last rest q); Stroke].

(** The path of a stroke; a stroke without a point has none. *)
Definition path_of (stroke : list Point) : list (Cmd Point) :=
  match stroke with
  | q :: rest => stroke_path q rest
  | [] => []
  end.

(** The number of calls to [predict] in a trace. *)
Definition is_predict (c : Call) : bool :=
  match c with Predict _ _ => true | _ => false end.

Definition predict_calls (t : list Call) : nat :=
  length (List.filter is_predict t).

(** The world once the crop is shown on its canvas and drawn, scaled, on the
    28 x 28 one: the state of the page when the scaled raster is read. *)
Definition resampled (crop : ImageData) (w : World Point) : World Point :=
  emit input_canvas_scaled
    [ SaveState;
      Scale (PrimFloat.div 28%float (number_of_nat (img_width crop)))
            (PrimFloat.div 28%float (number_of_nat (img_height crop)));
      ClearRect 0 0 (img_width crop) (img_height crop);
      DrawImage input_canvas_centercrop 0 0 ]
    (emit input_canvas_centercrop [PutImageData crop 0 0]
       (resized_height input_canvas_centercrop (img_height crop)
          (resized_width input_canvas_centercrop (img_width crop) w))).

(** A run of the pointer-up handler in [w] gets as far as the inference call:
    a stroke is open, the model [m] is loaded, the browser and the cropper
    return, and the scaled canvas gives the 28 x 28 raster [scaled]. *)
Definition pipeline_ready (w : World Point) (m : Model) (scaled : ImageData) : Prop :=
  drawing (canvas_store w) = true
  ∧ model w = Some m
  ∧ ∃ img crop,
      getImageData env (dom w) input_canvas = Normal img
      ∧ centerCrop env img = Normal crop
      ∧ getImageData env (dom (resampled crop (with_drawing false w))) input_canvas_scaled
        = Normal scaled
      ∧ length (img_data scaled) = 4 * 28 * 28.

(** The input vector handed to [predict] for the scaled raster. *)
Definition input_tensor (scaled : ImageData) : Tensor :=
  mkTensor (alpha_vector (img_data scaled)) [1; 28; 28; 1].

(** One run of [deactivateDrawAndPredict], by the results of the calls it
    makes. *)
Definition pointer_up_run (w : World Point) : outcome unit * World Point :=
  if drawing (canvas_store w) then
    let w1 := with_drawing false w in
    match getImageData env (dom w) input_canvas with
    | Abrupt err => (Thrown err, w1)
    | Normal img =>
        match centerCrop env img with
        | Abrupt err => (Thrown err, w1)
        | Normal crop =>
            let w2 := resampled crop w1 in
            match getImageData env (dom w2) input_canvas_scaled with
            | Abrupt err => (Thrown err, w2)
            | Normal scaled =>
                let w3 := emit input_canvas_scaled [RestoreState] w2 in
                match tensor4d (alpha_vector (img_data scaled)) [1; 28; 28; 1] with
                | Abrupt err => (Thrown err, w3)
                | Normal x =>
                    match model w with
                    | None =>
                        (Thrown (TypeError
                           "cannot read properties of undefined (reading 'predict')"), w3)
                    | Some m =>
                        match predict env m x with
                        | Abrupt err => (Thrown err, called [Predict m x] w3)
                        | Normal out =>
                            (Returned tt, called [Predict m x; UpdatePredict out] w3)
                        end
                    end
                end
            end
        end
    end
  else (Returned tt, w).

(** The world with another model type selected in the UI. *)
Definition set_modelTypeId (s : string) (w : World Point) : World Point :=
  mkWorld (canvas_store w) (model w) (data w) (dom w) s (indexeddb w) (trace w).

(** A canvas the browser reads as fully transparent. *)
Definition blank_canvas (w : World Point) : Prop :=
  ∃ img, getImageData env (dom w) input_canvas = Normal img
         ∧ ∀ k a, pixel_alpha (img_data img) k = Some a → a = x00.

(** Pointer-up events at the given times. *)
Definition pointer_ups (l : list (Z * PointerEvent)) : list (Z * Input PointerEvent) :=
  map (fun te => (te.1, PointerUp te.2)) l.

(** The events after one at time [t] form a burst: each comes no earlier than
    the one before it and less than the debounce wait after it. *)
Fixpoint burst (t : Z) (rest : list (Z * PointerEvent)) : Prop :=
  match rest with
  | [] => True
  | te :: rest' => (t ≤ te.1 < t + debounce_wait)%Z ∧ burst te.1 rest'
  end.

(** What an event does at once, the timer left aside: a pointer-down, a
    pointer-move and a clear run their handler; a pointer-up runs nothing. *)
Definition immediate (w : World Point) (i : Input PointerEvent) : World Point :=
  match i with
  | PointerDown e => run_handler (activateDraw env e) w
  | PointerMove e => run_handler (draw env e) w
  | PointerUp _ => w
  | ClearButton => run_handler clear w
  end.

(** The world after the events of [l], the timer left aside. *)
Definition run_immediate (w : World Point) (l : list (Z * Input PointerEvent)) :
    World Point :=
  foldl (fun w ti => immediate w ti.2) w l.

(** The pointer-up seen last: [acc] before the event, and after it. *)
Definition later_up (acc : option (Z * PointerEvent)) (ti : Z * Input PointerEvent) :
    option (Z * PointerEvent) :=
  match ti.2 with
  | PointerUp e => Some (ti.1, e)
  | _ => acc
  end.

(** The last pointer-up of a sequence of events, with its time. *)
Definition last_pointer_up (l : list (Z * Input PointerEvent)) :
    option (Z * PointerEvent) :=
  foldl later_up None l.

(** The events of [l] stay within one debounce window: every event, of
    whatever kind, arrives less than the debounce wait after the pointer-up
    before it ([up] is the time of the pointer-up before the first event, if
    there was one). *)
Fixpoint in_burst (up : option Z) (l : list (Z * Input PointerEvent)) : Prop :=
  match l with
  | [] => True
  | ti :: l' =>
      match up with
      | Some t => (ti.1 < t + debounce_wait)%Z
      | None => True
      end
      ∧ in_burst (match ti.2 with PointerUp _ => Some ti.1 | _ => up end) l'
  end.

(** The two handlers of a pen cycle, and a run of any sequence of them, in
    whatever order the browser and the timer call them. *)
Inductive PenEvent : Type :=
| PenDown (e : PointerEvent)
| PenUp (e : PointerEvent).

Definition pen_handler (i : PenEvent) : M Point unit :=
  match i with
  | PenDown e => activateDraw env e
  | PenUp e => deactivateDrawAndPredict env e
  end.

Definition run_pen (w : World Point) (l : list PenEvent) : World Point :=
  foldl (fun w i => run_handler (pen_handler i) w) w l.

(** The strokes begun by the pen-downs of a sequence, one point each. *)
Definition strokes_begun (l : list PenEvent) : list (list Point) :=
  l ≫= fun i => match i with
                | PenDown e => [[getCoordinates env e]]
                | PenUp _ => []
                end.

End Vocabulary.

Arguments PenEvent : clear implicits.

(** ** A concrete page *)

(** Points and events are pairs of integers; the cropper returns the whole
    raster; the browser reads every canvas as transparent, which is what a
    browser does for canvases nothing was drawn on. *)
Definition demo_env : Env (Z * Z) (Z * Z) :=
  {| IMAGE_H := 28;
     IMAGE_W := 28;
     getCoordinates := fun e => e;
     getMidpoint := fun a b => ((a.1 + b.1) / 2, (a.2 + b.2) / 2)%Z;
     centerCrop := fun img => Normal img;
     getImageData := fun d id =>
       let cv := getElementById d id in
       Normal (uniform_raster (cv_width cv) (cv_height cv) x00 x00 x00 x00);
     predict := fun _ _ => Normal (replicate 10 0.125%float);
     getTestData := fun n => mkTensor [] [n; 28; 28; 1] |}.

(** The same page with a cropper that fails whatever it is given. *)
Definition failing_crop_env : Env (Z * Z) (Z * Z) :=
  {| IMAGE_H := IMAGE_H demo_env;
     IMAGE_W := IMAGE_W demo_env;
     getCoordinates := getCoordinates demo_env;
     getMidpoint := getMidpoint demo_env;
     centerCrop := fun _ => Abrupt (Error "Invalid typed array length");
     getImageData := getImageData demo_env;
     predict := predict demo_env;
     getTestData := getTestData demo_env |}.

(** The page as loaded: no stroke, no model, no data, empty canvases. *)
Definition fresh_world : World (Z * Z) :=
  mkWorld (mkCanvasStore [] false) None false
    (mkDom (mkCanvas 56 56 []) (mkCanvas 56 56 []) (mkCanvas 28 28 []))
    "ConvNet" ∅ [].

(** The page once a model was trained, its trace emptied. *)
Definition trained_world : World (Z * Z) :=
  set_trace [] (run_handler (trainButtonCallback demo_env) fresh_world).

(** The trained page with a stroke open at the centre of the canvas. *)
Definition tapped_world : World (Z * Z) :=
  run_handler (activateDraw demo_env (28, 28)%Z) trained_world.

(** The page with a stroke open and no model. *)
Definition untrained_tapped_world : World (Z * Z) :=
  run_handler (activateDraw demo_env (28, 28)%Z) fresh_world.

(** The model the train button leaves on the concrete page. *)
Definition trained_model : Model :=
  mkModel (layers (createConvModel demo_env)) true.

(** The trained page at rest, without and with a stroke open. *)
Definition trained_page : Page (Z * Z) (Z * Z) := mkPage trained_world None.
Definition tapped_page : Page (Z * Z) (Z * Z) := mkPage tapped_world None.

(** Three 28 x 28 rasters: opaque in the stroke colour [#393E46], opaque in
    black, and transparent. *)
Definition opaque_ink : ImageData := uniform_raster 28 28 x39 x3e x46 xff.
Definition black_ink : ImageData := uniform_raster 28 28 x00 x00 x00 xff.
Definition transparent28 : ImageData := uniform_raster 28 28 x00 x00 x00 x00.

(** ** Sequences of handler calls, and the model store *)

Section Sessions.

Context {Point PointerEvent : Type} (env : Env Point PointerEvent).

(** A call of one of the four functions given to [ui.setCanvasInput]. *)
Inductive CanvasCall : Type :=
| CallActivateDraw (e : PointerEvent)
| CallDraw (e : PointerEvent)
| CallDeactivateDrawAndPredict (e : PointerEvent)
| CallClear.

Definition canvas_handler (c : CanvasCall) : M Point unit :=
  match c with
  | CallActivateDraw e => activateDraw env e
  | CallDraw e => draw env e
  | CallDeactivateDrawAndPredict e => deactivateDrawAndPredict env e
  | CallClear => clear
  end.

(** The calls of a list, one after the other, each run as the browser runs a
    handler. *)
Definition run_canvas (w : World Point) (l : list CanvasCall) : World Point :=
  foldl (fun w c => run_handler (canvas_handler c) w) w l.

Definition is_deactivate (c : CanvasCall) : bool :=
  match c with CallDeactivateDrawAndPredict _ => true | _ => false end.

(** A drawing session as the handlers keep it: every stroke has a point, and
    there is a stroke whenever one is open. *)
Definition session_ok (cs : CanvasStore Point) : Prop :=
  Forall (fun stroke => stroke ≠ []) (strokes cs)
  ∧ (drawing cs = true → strokes cs ≠ []).

(** A pointer-down followed by pointer-moves. *)
Definition gesture (e0 : PointerEvent) (es : list PointerEvent) : list CanvasCall :=
  CallActivateDraw e0 :: map CallDraw es.

(** The model as [train] leaves it. *)
Definition fitted (m : Model) : Model := mkModel (layers m) true.

(** The key both the train button and the [try] block of the load button
    choose for a model type: [if (modelType === 'ConvNet') ... else ...]. *)
Definition model_key (modelType : string) : string :=
  if decide (modelType = "ConvNet")
  then "indexeddb://my-model-1"
  else "indexeddb://my-model-2".

(** The number [console.log] prints beside that choice. *)
Definition model_number (modelType : string) : nat :=
  if decide (modelType = "ConvNet") then 1 else 2.

(** What [showPredictions] adds to the trace when data and the model [m] are
    there. *)
Definition predictions_shown (m : Model) : list Call :=
  Predict m (getTestData env 100)
  :: match predict env m (getTestData env 100) with
     | Normal out => [ShowTestResults out]
     | Abrupt err => [Uncaught err]
     end.

(** The statement [m] keeps the property [Q] of the world, however it ends. *)
Definition stays (Q : World Point → Prop) {A} (m : M Point A) : Prop :=
  ∀ w, Q w → Q (m w).2.

(** What [draw] leaves alone: the calls made, the model, the data, the store,
    the selected type, the drawing flag, the two other canvases and the size
    of the drawing canvas. *)
Record DrawFrame : Type := mkDrawFrame {
  df_trace : list Call;
  df_model : option Model;
  df_data : bool;
  df_indexeddb : gmap string Model;
  df_modelTypeId : string;
  df_drawing : bool;
  df_centercrop : Canvas Point;
  df_scaled : Canvas Point;
  df_width : nat;
  df_height : nat
}.

Definition draw_frame (w : World Point) : DrawFrame :=
  mkDrawFrame (trace w) (model w) (data w) (indexeddb w) (modelTypeId w)
    (drawing (canvas_store w)) (cv_centercrop (dom w)) (cv_scaled (dom w))
    (cv_width (cv_input (dom w))) (cv_height (cv_input (dom w))).

End Sessions.

Arguments CanvasCall : clear implicits.
Arguments DrawFrame : clear implicits.

(** ** The tensor encoder: proofs *)

Example encode_one_pixel :
  encode [x17; x22; xff; xff] = Some [Some 1%float].
Proof. vm_compute. reflexivity. Qed.

Lemma store_at_length {A} (a : list (option A)) (v : A) :
  Js.store a (length a) v = a ++ [Some v].
Proof.
  unfold Js.store. case_decide; [lia|].
  by rewrite Nat.sub_diag.
Qed.

Lemma encode_loop_exit fuel data len i input :
  len ≤ i → encode_loop fuel data len i input = Some input.
Proof. intros. destruct fuel; simpl; case_decide; done || lia. Qed.

Lemma encode_loop_step fuel data len i input :
  i < len →
  encode_loop (S fuel) data len i input
  = encode_loop fuel data len (i + 4)
      (Js.store input (i / 4) (Js.div255 (data !! (i + 3)))).
Proof. intros. simpl. case_decide; done || lia. Qed.

Lemma encode_loop_spec (n : nat) :
  ∀ fuel data len k input,
    length input = k →
    n = (len + 3) / 4 - k →
    n ≤ fuel →
    encode_loop fuel data len (4 * k) input
    = Some (input ++ map (fun j => Some (Js.div255 (pixel_alpha data j))) (seq k n)).
Proof.
  induction n as [|n IH]; intros fuel data len k input Hk Hn Hfuel.
  - rewrite encode_loop_exit, app_nil_r; [done|].
    pose proof (Nat.div_mod_eq (len + 3) 4).
    pose proof (Nat.mod_upper_bound (len + 3) 4). lia.
  - destruct fuel as [|fuel]; [lia|].
    rewrite encode_loop_step.
    2:{ pose proof (Nat.div_mod_eq (len + 3) 4).
        pose proof (Nat.mod_upper_bound (len + 3) 4). lia. }
    replace (4 * k + 4) with (4 * S k) by lia.
    replace (4 * k / 4) with (length input).
    2:{ rewrite Hk, Nat.mul_comm. by rewrite Nat.div_mul. }
    rewrite store_at_length.
    rewrite (IH fuel data len (S k)); [| rewrite length_app; simpl; lia | lia | lia].
    by rewrite <- app_assoc.
Qed.

(** The loop always ends within its fuel, and computes the vector the
    specification describes. *)
Lemma encode_total (data : list byte) :
  encode data = Some (alpha_vector data).
Proof.
  unfold encode, alpha_vector.
  change 0 with (4 * 0) at 1.
  rewrite (encode_loop_spec ((length data + 3) / 4) (length data) data (length data) 0 []);
    [done | done | lia |].
  destruct (length data) as [|n]; [done|].
  apply Nat.Div0.div_le_upper_bound. lia.
Qed.

Lemma length_alpha_vector (data : list byte) :
  length (alpha_vector data) = (length data + 3) / 4.
Proof. unfold alpha_vector. by rewrite length_map, length_seq. Qed.

Lemma lookup_alpha_vector (data : list byte) (k : nat) :
  k < (length data + 3) / 4 →
  alpha_vector data !! k = Some (Some (Js.div255 (pixel_alpha data k))).
Proof.
  intros Hk. unfold alpha_vector.
  rewrite list_lookup_fmap, lookup_seq_lt by done. done.
Qed.

Lemma byte_over_255_in_unit (a : byte) :
  Js.in_unit (PrimFloat.div (Js.of_byte a) 255%float) = true.
Proof. destruct a; vm_compute; reflexivity. Qed.

Lemma raster28_pixel (img : ImageData) (x y : nat) :
  raster28 img → x < 28 → y < 28 →
  y * img_width img + x < 784 ∧ ∃ a, alpha_at img x y = Some a.
Proof.
  intros (Hw & _ & Hlen) Hx Hy. rewrite Hw. split; [nia|].
  unfold alpha_at, pixel_alpha. rewrite Hw.
  apply lookup_lt_is_Some_2. nia.
Qed.

(** C1. Applied to a 28 x 28 RGBA raster, the tensor encoder returns a vector
    of exactly 784 numbers, without holes, in row-major pixel order: the
    element for the pixel in column [x] of row [y] sits at index [y * 28 + x]
    and is that pixel's alpha divided by 255.  Every element lies in [0, 1];
    an all-transparent raster gives 784 zeros and an all-opaque one gives 784
    ones. *)
Theorem tensor_encoder_28x28 (img : ImageData) :
  raster28 img →
  ∃ input : list (option float),
    encode (img_data img) = Some input
    ∧ length input = 784
    ∧ (∀ x y, x < 28 → y < 28 →
         ∃ a, alpha_at img x y = Some a
              ∧ input !! (y * 28 + x)
                = Some (Some (PrimFloat.div (Js.of_byte a) 255%float)))
    ∧ (∀ i, i < 784 → ∃ v, input !! i = Some (Some v) ∧ Js.in_unit v = true)
    ∧ ((∀ x y, x < 28 → y < 28 → alpha_at img x y = Some x00) →
       input = replicate 784 (Some 0%float))
    ∧ ((∀ x y, x < 28 → y < 28 → alpha_at img x y = Some xff) →
       input = replicate 784 (Some 1%float)).
Proof.
  intros Himg. pose proof Himg as (Hw & Hh & Hlen).
  assert (Hn : (length (img_data img) + 3) / 4 = 784) by (by rewrite Hlen).
  assert (Hpix : ∀ i, i < 784 →
            alpha_at img (i mod 28) (i / 28) = pixel_alpha (img_data img) i).
  { intros i Hi. unfold alpha_at. f_equal. rewrite Hw.
    pose proof (Nat.div_mod_eq i 28). lia. }
  assert (Huniform : ∀ (a : byte) (v : float),
            PrimFloat.div (Js.of_byte a) 255%float = v →
            (∀ x y, x < 28 → y < 28 → alpha_at img x y = Some a) →
            alpha_vector (img_data img) = replicate 784 (Some v)).
  { intros a v Hv Hall. apply list_eq. intros i.
    destruct (decide (i < 784)) as [Hi|Hi].
    - rewrite lookup_alpha_vector by lia.
      rewrite lookup_replicate_2 by done.
      rewrite <- Hpix, Hall by (done || apply Nat.mod_upper_bound
                                || apply Nat.Div0.div_lt_upper_bound; lia).
      simpl. by rewrite Hv.
    - rewrite lookup_ge_None_2 by (rewrite length_alpha_vector; lia).
      symmetry. apply lookup_replicate_None. lia. }
  exists (alpha_vector (img_data img)). split_and!.
  - apply encode_total.
  - by rewrite length_alpha_vector.
  - intros x y Hx Hy.
    destruct (raster28_pixel img x y Himg Hx Hy) as (Hi & a & Ha).
    exists a. split; [done|].
    rewrite Hw in Hi. rewrite lookup_alpha_vector by lia.
    unfold alpha_at in Ha. rewrite Hw in Ha. by rewrite Ha.
  - intros i Hi.
    destruct (raster28_pixel img (i mod 28) (i / 28) Himg) as (_ & a & Ha).
    { apply Nat.mod_upper_bound. lia. }
    { apply Nat.Div0.div_lt_upper_bound. lia. }
    exists (PrimFloat.div (Js.of_byte a) 255%float). split.
    + rewrite lookup_alpha_vector by lia. by rewrite <- Hpix, Ha.
    + apply byte_over_255_in_unit.
  - apply Huniform. vm_compute. reflexivity.
  - apply Huniform. vm_compute. reflexivity.
Qed.

(** C10. Two 28 x 28 RGBA rasters that carry the same alpha at every pixel are
    encoded to the same vector, whatever their red, green and blue samples. *)
Theorem encoder_ignores_rgb (img1 img2 : ImageData) :
  raster28 img1 → raster28 img2 →
  (∀ x y, x < 28 → y < 28 → alpha_at img1 x y = alpha_at img2 x y) →
  encode (img_data img1) = encode (img_data img2).
Proof.
  intros H1 H2 Halpha.
  pose proof H1 as (Hw1 & _ & Hlen1). pose proof H2 as (Hw2 & _ & Hlen2).
  rewrite !encode_total. f_equal. unfold alpha_vector.
  rewrite Hlen1, Hlen2. apply map_ext_in. intros i Hi.
  apply in_seq in Hi. do 2 f_equal.
  change ((4 * 28 * 28 + 3) / 4) with 784 in Hi.
  specialize (Halpha (i mod 28) (i / 28)).
  unfold alpha_at in Halpha. rewrite Hw1, Hw2 in Halpha.
  replace (i / 28 * 28 + i mod 28) with i in Halpha
    by (pose proof (Nat.div_mod_eq i 28); lia).
  apply Halpha.
  - apply Nat.mod_upper_bound. lia.
  - apply Nat.Div0.div_lt_upper_bound. lia.
Qed.

(** X15. The encoder on a buffer of any length: the loop ends, and returns
    one number for every started group of four samples, without holes.  Where
    the group has its fourth sample, the number is that sample over 255 and
    lies in [0, 1]; where the buffer ends before it, the number is NaN. *)
Theorem encoder_any_buffer (data : list byte) :
  ∃ input : list (option float),
    encode data = Some input
    ∧ length input = (length data + 3) / 4
    ∧ (∀ k a, data !! (4 * k + 3) = Some a →
         input !! k = Some (Some (PrimFloat.div (Js.of_byte a) 255%float))
         ∧ Js.in_unit (PrimFloat.div (Js.of_byte a) 255%float) = true)
    ∧ (∀ k, k < (length data + 3) / 4 → data !! (4 * k + 3) = None →
         input !! k = Some (Some PrimFloat.nan)).
Proof.
  exists (alpha_vector data). split_and!.
  - apply encode_total.
  - apply length_alpha_vector.
  - intros k a Ha. split; [|apply byte_over_255_in_unit].
    apply lookup_lt_Some in Ha as Hlt.
    rewrite lookup_alpha_vector.
    + unfold pixel_alpha. by rewrite Ha.
    + apply (Nat.div_le_lower_bound _ 4 (S k)); lia.
  - intros k Hk Hnone. rewrite lookup_alpha_vector by done.
    unfold pixel_alpha. by rewrite Hnone.
Qed.

(** ** The canvas renderer: the loop over the points of a stroke *)

Section Renderer.

Context {Point PointerEvent : Type} (env : Env Point PointerEvent).

Lemma emit_nil id (w : World Point) : emit id [] w = w.
Proof.
  destruct w as [cs m d [ci cc cx] mt db tr]. unfold emit.
  destruct id; simpl; rewrite app_nil_r;
    [by destruct ci | by destruct cc | by destruct cx].
Qed.

Lemma emit_emit id a b (w : World Point) :
  emit id b (emit id a w) = emit id (a ++ b) w.
Proof. unfold emit. destruct id; simpl; by rewrite app_assoc. Qed.

Lemma ctx_run id (c : Cmd Point) w : ctx id c w = (Returned tt, emit id [c] w).
Proof. reflexivity. Qed.

Lemma while_exit {St} fuel (cond : St → bool) body (s : St) (w : World Point) :
  cond s = false → while fuel cond body s w = (Returned s, w).
Proof. intros H. destruct fuel; simpl; by rewrite H. Qed.

Lemma while_step {St} fuel (cond : St → bool) body (s : St) (w : World Point) :
  cond s = true →
  while (S fuel) cond body s w = bind (body s) (while fuel cond body) w.
Proof. intros H. simpl. by rewrite H. Qed.

Lemma spread_run (a : Point) (w : World Point) :
  spread (Some a) w = (Returned a, w).
Proof. reflexivity. Qed.

(** One statement of a handler, run. *)
Ltac run_step :=
  first [ rewrite ctx_run | rewrite spread_run ]; cbn beta iota.

Lemma curve_step_run points i (a b : Point) w :
  curve_step env points (i, Some a, Some b) w
  = (Returned (i + 1, points !! i, points !! (i + 1)),
     emit input_canvas [QuadraticCurveTo a (getMidpoint env a b)] w).
Proof. reflexivity. Qed.

Lemma curve_segments_cons (a b : Point) rest :
  curve_segments env (a :: b :: rest)
  = QuadraticCurveTo a (getMidpoint env a b) :: curve_segments env (b :: rest).
Proof. reflexivity. Qed.

Lemma last_cons (a b : Point) rest : List.last (b :: rest) a = List.last rest b.
Proof.
  revert a b. induction rest as [|c rest IH]; intros a b; [done|].
  change (List.last (c :: rest) a = List.last (c :: rest) b).
  by rewrite !IH.
Qed.

(** The loop over the points of a stroke, entered at any point [a] of it:
    it ends within its fuel, leaves [p1] on the last point, and has drawn the
    segments of the points from [a] on. *)
Lemma curve_loop (rest : list Point) :
  ∀ pre a fuel w,
    length rest ≤ fuel →
    while fuel
      (fun s => bool_decide (s.1.1 < length (pre ++ a :: rest)))
      (curve_step env (pre ++ a :: rest))
      (S (length pre), Some a, (pre ++ a :: rest) !! S (length pre)) w
    = (Returned (length (pre ++ a :: rest), Some (List.last rest a), None),
       emit input_canvas (curve_segments env (a :: rest)) w).
Proof.
  induction rest as [|b rest IH]; intros pre a fuel w Hfuel.
  - assert (Hl : length (pre ++ [a]) = S (length pre))
      by (rewrite length_app; simpl; lia).
    rewrite while_exit.
    + rewrite emit_nil, Hl, lookup_ge_None_2 by lia. reflexivity.
    + apply bool_decide_eq_false. simpl. lia.
  - destruct fuel as [|fuel]; [simpl in Hfuel; lia|].
    rewrite while_step.
    2:{ apply bool_decide_eq_true. rewrite length_app. simpl. lia. }
    assert (Hb : (pre ++ a :: b :: rest) !! S (length pre) = Some b).
    { rewrite lookup_app_r by lia.
      by replace (S (length pre) - length pre) with 1 by lia. }
    unfold bind. rewrite Hb, curve_step_run, Hb.
    specialize (IH (pre ++ [a]) b fuel
                  (emit input_canvas [QuadraticCurveTo a (getMidpoint env a b)] w)).
    rewrite <- (app_assoc pre [a] (b :: rest)) in IH.
    change ([a] ++ b :: rest) with (a :: b :: rest) in IH.
    replace (S (length (pre ++ [a]))) with (S (length pre) + 1) in IH
      by (rewrite length_app; simpl; lia).
    simpl in Hfuel.
    rewrite IH by lia.
    rewrite emit_emit, last_cons, curve_segments_cons. reflexivity.
Qed.

(** One stroke with at least a point is drawn as its path, and nothing goes
    wrong on the way. *)
Lemma draw_stroke_path (q : Point) (rest : list Point) (w : World Point) :
  draw_stroke env (Some (q :: rest)) w
  = (Returned tt, emit input_canvas (stroke_path env q rest) w).
Proof.
  pose proof (curve_loop rest [] q (length (q :: rest))
                (emit input_canvas ([BeginPath] ++ [MoveTo q]) w)) as H.
  change ([] ++ q :: rest) with (q :: rest) in H.
  change (S (length [])) with 1 in H.
  unfold draw_stroke, mbind, M_bind, bind, mret, M_ret, ret.
  change ((q :: rest) !! 0) with (Some q).
  repeat run_step. rewrite emit_emit, H by (simpl; lia).
  cbn [fst snd]. repeat run_step.
  rewrite !emit_emit. unfold stroke_path.
  by rewrite <- !app_assoc.
Qed.

End Renderer.

(** ** The pointer-up pipeline: one run of the handler *)

Section Pipeline.

Context {Point PointerEvent : Type} (env : Env Point PointerEvent).

(** *** Running a handler one statement at a time *)

Lemma bind_modify {B} f (k : unit → M Point B) w :
  (modify f ≫= k) w = k tt (f w).
Proof. reflexivity. Qed.

Lemma bind_gets {A B} (f : World Point → A) (k : A → M Point B) w :
  (gets f ≫= k) w = k (f w) w.
Proof. reflexivity. Qed.

Lemma mret_run {A} (a : A) (w : World Point) :
  (mret a : M Point A) w = (Returned a, w).
Proof. reflexivity. Qed.

Lemma bind_mret {A B} (a : A) (k : A → M Point B) w :
  (mret a ≫= k) w = k a w.
Proof. reflexivity. Qed.

Lemma bind_throw {A B} e (k : A → M Point B) w :
  (throw e ≫= k) w = (Thrown e, w).
Proof. reflexivity. Qed.

Lemma bind_lift {A B} (c : completion A) (k : A → M Point B) w :
  (lift c ≫= k) w
  = match c with Normal a => k a w | Abrupt e => (Thrown e, w) end.
Proof. by destruct c. Qed.

Lemma bind_getImageData {B} id (k : ImageData → M Point B) w :
  (ctx_getImageData env id ≫= k) w
  = match getImageData env (dom w) id with
    | Normal a => k a w
    | Abrupt e => (Thrown e, w)
    end.
Proof.
  unfold ctx_getImageData, mbind, M_bind, bind.
  by destruct (getImageData env (dom w) id).
Qed.

Lemma bind_assoc {A B C} (m : M Point A) (f : A → M Point B) (k : B → M Point C) w :
  ((m ≫= f) ≫= k) w = (m ≫= (fun a => f a ≫= k)) w.
Proof.
  unfold mbind, M_bind, bind. destruct (m w) as [[a| |] w']; try done.
Qed.

(** The canvas operations of the handler amount to [resampled]. *)
Lemma resample_steps (crop : ImageData) (w : World Point) :
  emit input_canvas_scaled [DrawImage input_canvas_centercrop 0 0]
    (emit input_canvas_scaled
       [ClearRect 0 0 (img_width crop) (img_height crop)]
       (emit input_canvas_scaled
          [Scale (PrimFloat.div 28%float (number_of_nat (img_width crop)))
                 (PrimFloat.div 28%float (number_of_nat (img_height crop)))]
          (emit input_canvas_scaled [SaveState]
             (emit input_canvas_centercrop [PutImageData crop 0 0]
                (resized_height input_canvas_centercrop (img_height crop)
                   (resized_width input_canvas_centercrop (img_width crop) w))))))
  = resampled crop w.
Proof. unfold resampled. by rewrite !emit_emit. Qed.

Lemma called_called (a b : list Call) (w : World Point) :
  called b (called a w) = called (a ++ b) w.
Proof. unfold called, set_trace. simpl. by rewrite app_assoc. Qed.

Lemma centercrop_size (crop : ImageData) (w : World Point) :
  cv_centercrop
    (dom (emit input_canvas_centercrop [PutImageData crop 0 0]
            (resized_height input_canvas_centercrop (img_height crop)
               (resized_width input_canvas_centercrop (img_width crop) w))))
  = mkCanvas (img_width crop) (img_height crop) [PutImageData crop 0 0].
Proof. reflexivity. Qed.

Lemma deactivateDrawAndPredict_run (e : PointerEvent) (w : World Point) :
  deactivateDrawAndPredict env e w = pointer_up_run env w.
Proof.
  unfold pointer_up_run, deactivateDrawAndPredict.
  rewrite bind_gets. cbn beta.
  destruct (drawing (canvas_store w)) eqn:Hd; cbn [negb]; [|reflexivity].
  unfold set_drawing, set_canvas_width, set_canvas_height, ctx, call.
  rewrite bind_modify, bind_getImageData.
  change (dom (with_drawing false w)) with (dom w).
  destruct (getImageData env (dom w) input_canvas) as [img|err]; [|reflexivity].
  rewrite bind_lift.
  destruct (centerCrop env img) as [crop|err]; [|reflexivity].
  rewrite !bind_modify, bind_gets, centercrop_size. cbn beta.
  cbn [cv_width cv_height].
  rewrite !bind_modify, bind_getImageData, resample_steps.
  destruct (getImageData env _ input_canvas_scaled) as [scaled|err]; [|reflexivity].
  rewrite bind_modify, encode_total, bind_mret, bind_lift.
  destruct (tensor4d _ _) as [x|err]; [|reflexivity].
  unfold model_predict. rewrite bind_assoc, bind_gets.
  change (model (emit _ _ (resampled crop (with_drawing false w)))) with (model w).
  destruct (model w) as [m|]; [|reflexivity].
  unfold call. rewrite bind_assoc, bind_modify.
  unfold mbind, M_bind, bind, lift.
  destruct (predict env m x) as [out|err]; [|reflexivity].
  unfold modify. by rewrite called_called.
Qed.

(** What a run leaves of the drawing session: the strokes, and the flag
    down. *)
Lemma pointer_up_run_store (w : World Point) :
  canvas_store (pointer_up_run env w).2
  = mkCanvasStore (strokes (canvas_store w)) false.
Proof.
  unfold pointer_up_run.
  destruct (drawing (canvas_store w)) eqn:Hd.
  - repeat case_match; reflexivity.
  - destruct w as [[ss dr] m dt d mt db tr]. simpl in *. by subst.
Qed.

(** A run with a stroke open either ends in an exception or has called
    [predict] once and shown its result. *)
Lemma pointer_up_run_open (w : World Point) :
  drawing (canvas_store w) = true →
  (∃ err, (pointer_up_run env w).1 = Thrown err)
  ∨ ((pointer_up_run env w).1 = Returned tt
     ∧ ∃ m x out,
         trace (pointer_up_run env w).2 = trace w ++ [Predict m x; UpdatePredict out]).
Proof.
  unfold pointer_up_run. intros ->.
  repeat case_match; eauto 10.
Qed.

(** A run that gets as far as the inference call: [predict] is called on the
    encoded raster, and its result is shown when it returns. *)
Lemma pointer_up_run_ready (w : World Point) m scaled :
  pipeline_ready env w m scaled →
  (pointer_up_run env w).1
  = match predict env m (input_tensor scaled) with
    | Normal _ => Returned tt
    | Abrupt err => Thrown err
    end
  ∧ trace (pointer_up_run env w).2
    = trace w ++ Predict m (input_tensor scaled)
        :: match predict env m (input_tensor scaled) with
           | Normal out => [UpdatePredict out]
           | Abrupt _ => []
           end.
Proof.
  intros (Hd & Hm & img & crop & Himg & Hcrop & Hscaled & Hlen).
  unfold pointer_up_run, input_tensor.
  rewrite Hd, Himg, Hcrop. cbn zeta. rewrite Hscaled, Hm.
  unfold tensor4d. rewrite length_alpha_vector, Hlen.
  case_decide as Hn; [|by contradict Hn].
  by destruct (predict env m _).
Qed.

(** Without a model no run calls anything, and a run with a stroke open ends
    in an exception. *)
Lemma pointer_up_run_no_model (w : World Point) :
  model w = None →
  trace (pointer_up_run env w).2 = trace w
  ∧ (drawing (canvas_store w) = true → ∃ err, (pointer_up_run env w).1 = Thrown err).
Proof.
  unfold pointer_up_run. intros ->.
  destruct (drawing (canvas_store w)); [|by split].
  repeat case_match; split; try reflexivity; eauto.
Qed.

(** A run adds at most one call to [predict]. *)
Lemma pointer_up_run_calls (w : World Point) :
  predict_calls (trace (pointer_up_run env w).2) ≤ predict_calls (trace w) + 1
  ∧ (drawing (canvas_store w) = false → pointer_up_run env w = (Returned tt, w)).
Proof.
  unfold pointer_up_run.
  destruct (drawing (canvas_store w)); [|split; [simpl; lia | done]].
  split; [|done].
  repeat case_match; simpl; unfold predict_calls;
    rewrite ?List.filter_app, ?length_app; simpl; lia.
Qed.

End Pipeline.

(** ** The drawing handlers: theorems *)

Section DrawingTheorems.

Context {Point PointerEvent : Type} (env : Env Point PointerEvent).

Lemma curve_segments_lookup (points : list Point) (i : nat) (a b : Point) :
  points !! i = Some a →
  points !! (i + 1) = Some b →
  curve_segments env points !! i = Some (QuadraticCurveTo a (getMidpoint env a b)).
Proof.
  intros Ha Hb. unfold curve_segments.
  rewrite lookup_zip_with, Ha. simpl.
  rewrite lookup_tail. by replace (S i) with (i + 1) by lia; rewrite Hb.
Qed.

Lemma curve_segments_length (points : list Point) :
  length (curve_segments env points) = length points - 1.
Proof.
  destruct points as [|a l]; [done|].
  unfold curve_segments. rewrite length_zip_with. cbn [tail length].
  rewrite Nat.min_r by lia. lia.
Qed.

(** The loop over the strokes, entered at any stroke: every stroke left is
    drawn as its path, in order, and the loop ends within its fuel. *)
Lemma stroke_loop (todo : list (list Point)) :
  ∀ done fuel w,
    strokes (canvas_store w) = done ++ todo →
    Forall (fun stroke => stroke ≠ []) todo →
    length todo ≤ fuel →
    while fuel (fun s => bool_decide (s < length (done ++ todo)))
      (fun s =>
         stroke ← gets (fun w => strokes (canvas_store w) !! s);
         draw_stroke env stroke;;
         mret (s + 1)) (length done) w
    = (Returned (length (done ++ todo)),
       emit input_canvas (concat (map (path_of env) todo)) w).
Proof.
  induction todo as [|t todo IH]; intros done fuel w Hw Hne Hfuel.
  - rewrite while_exit.
    + cbn [map concat]. by rewrite emit_nil, app_nil_r.
    + apply bool_decide_eq_false. rewrite app_nil_r. lia.
  - destruct fuel as [|fuel]; [simpl in Hfuel; lia|].
    rewrite while_step.
    2:{ apply bool_decide_eq_true. rewrite length_app. simpl. lia. }
    apply Forall_cons in Hne as [Ht Hne].
    destruct t as [|q rest]; [done|].
    unfold bind at 1. rewrite bind_gets, Hw.
    rewrite lookup_app_r, Nat.sub_diag by lia. cbn [lookup list_lookup].
    unfold mbind at 1, M_bind at 1, bind at 1.
    rewrite draw_stroke_path. cbn beta iota. rewrite mret_run. cbn beta iota.
    specialize (IH (done ++ [q :: rest]) fuel
                  (emit input_canvas (stroke_path env q rest) w)).
    rewrite <- app_assoc in IH. cbn [app] in IH.
    replace (length done + 1) with (length (done ++ [q :: rest]))
      by (rewrite length_app; simpl; lia).
    rewrite IH; [| done | done | simpl in Hfuel; lia].
    by rewrite emit_emit.
Qed.

(** A pointer-move with a stroke open, run. *)
Lemma draw_run (e : PointerEvent) (w : World Point) ss l :
  drawing (canvas_store w) = true →
  strokes (canvas_store w) = ss ++ [l] →
  Forall (fun stroke => stroke ≠ []) ss →
  draw env e w
  = (Returned tt,
     emit input_canvas (concat (map (path_of env) (ss ++ [l ++ [getCoordinates env e]])))
       (with_strokes (ss ++ [l ++ [getCoordinates env e]])
          (emit input_canvas
             [ SetLineWidth 20; SetLineCap "round"; SetLineJoin "round";
               SetStrokeStyle "#393E46";
               ClearRect 0 0 (cv_width (cv_input (dom w)))
                 (cv_height (cv_input (dom w))) ] w))).
Proof.
  intros Hd Hss Hne. unfold draw.
  rewrite bind_gets, Hd. cbn [negb]. unfold ctx, set_strokes.
  rewrite !bind_modify, bind_gets. cbn beta.
  rewrite bind_modify, !emit_emit. cbn [app].
  change (cv_input (dom (emit input_canvas ?c w))) with
    (mkCanvas (cv_width (cv_input (dom w))) (cv_height (cv_input (dom w)))
       (cv_ops (cv_input (dom w)) ++ c)).
  cbn [cv_width cv_height].
  rewrite bind_gets.
  change (strokes (canvas_store (emit input_canvas ?c w)))
    with (strokes (canvas_store w)).
  rewrite Hss, length_app. cbn [length].
  replace (length ss + 1 - 1) with (length ss) by lia.
  rewrite lookup_app_r, Nat.sub_diag by lia. cbn [lookup list_lookup].
  rewrite bind_mret, bind_modify, bind_gets.
  set (w1 := with_strokes _ _).
  assert (Hw1 : strokes (canvas_store w1) = ss ++ [l ++ [getCoordinates env e]]).
  { subst w1. unfold with_strokes. cbn.
    rewrite insert_app_r_alt, Nat.sub_diag by lia. done. }
  rewrite Hw1.
  pose proof (stroke_loop (ss ++ [l ++ [getCoordinates env e]]) []
                (length (ss ++ [l ++ [getCoordinates env e]])) w1 Hw1) as Hloop.
  cbn [app length] in Hloop.
  unfold mbind at 1, M_bind at 1, bind at 1.
  rewrite Hloop; [| | done].
  - cbn beta iota. rewrite mret_run. do 2 f_equal.
    subst w1. unfold with_strokes. f_equal. f_equal.
    rewrite insert_app_r_alt, Nat.sub_diag by lia. done.
  - apply Forall_app. split; [done|].
    apply Forall_singleton. by destruct l.
Qed.

(** X1. A pointer-move with a stroke open returns normally: the point joins
    the last stroke, the canvas is styled and cleared in full, and every
    stroke recorded so far is drawn anew, in recorded order, as its path. *)
Theorem draw_redraws_all_strokes (e : PointerEvent) (w : World Point) ss l :
  drawing (canvas_store w) = true →
  strokes (canvas_store w) = ss ++ [l] →
  Forall (fun stroke => stroke ≠ []) ss →
  draw env e w
  = (Returned tt,
     emit input_canvas (concat (map (path_of env) (ss ++ [l ++ [getCoordinates env e]])))
       (with_strokes (ss ++ [l ++ [getCoordinates env e]])
          (emit input_canvas
             [ SetLineWidth 20; SetLineCap "round"; SetLineJoin "round";
               SetStrokeStyle "#393E46";
               ClearRect 0 0 (cv_width (cv_input (dom w)))
                 (cv_height (cv_input (dom w))) ] w))).
Proof. apply draw_run. Qed.

(** C4. A pointer-move that arrives while no stroke is open ([drawing] is
    false) is ignored: [draw] returns without an exception and leaves the
    strokes, the flag, the canvas and everything else as they were. *)
Theorem draw_without_pointer_down (e : PointerEvent) (w : World Point) :
  drawing (canvas_store w) = false →
  draw env e w = (Returned tt, w).
Proof.
  intros Hd. unfold draw. rewrite bind_gets, Hd. reflexivity.
Qed.

(** C6. A stroke of two points or more is rendered as a path that starts at
    its first point, has one quadratic segment for every point with a
    successor, in the order of the points, the segment of a point having the
    point as control point and the midpoint between the point and its
    successor as end point, and ends with a line to the last point. *)
Theorem stroke_is_drawn_smoothed (q0 q1 : Point) (rest : list Point) (w : World Point) :
  let points := q0 :: q1 :: rest in
  draw_stroke env (Some points) w
  = (Returned tt,
     emit input_canvas
       ([BeginPath; MoveTo q0] ++ curve_segments env points
          ++ [LineTo (List.last rest q1); Stroke]) w)
  ∧ length (curve_segments env points) = length points - 1
  ∧ ∀ i current next,
      points !! i = Some current →
      points !! (i + 1) = Some next →
      curve_segments env points !! i
      = Some (QuadraticCurveTo current (getMidpoint env current next)).
Proof.
  intros points. split_and!.
  - subst points. rewrite draw_stroke_path. unfold stroke_path.
    by rewrite last_cons.
  - apply curve_segments_length.
  - intros i a b. apply curve_segments_lookup.
Qed.

(** X2. A pointer-down begins a new stroke that holds the point of the event,
    after the strokes already recorded, and raises the drawing flag; a stroke
    left open is kept as it is. *)
Theorem pointer_down_starts_stroke (e : PointerEvent) (w : World Point) :
  let r := activateDraw env e w in
  r.1 = Returned tt
  ∧ drawing (canvas_store r.2) = true
  ∧ strokes (canvas_store r.2)
    = strokes (canvas_store w) ++ [[getCoordinates env e]]
  ∧ dom r.2 = dom w
  ∧ trace r.2 = trace w.
Proof. cbn zeta. by split_and!. Qed.

(** X3. The clear button empties the strokes, lowers the drawing flag and
    clears each of the three canvases over its whole size. *)
Theorem clear_resets_session (w : World Point) :
  let r := clear w in
  r.1 = Returned tt
  ∧ canvas_store r.2 = mkCanvasStore [] false
  ∧ ∀ id,
      cv_ops (getElementById (dom r.2) id)
      = cv_ops (getElementById (dom w) id)
          ++ [ClearRect 0 0 (cv_width (getElementById (dom w) id))
                (cv_height (getElementById (dom w) id))].
Proof.
  cbn zeta. split_and!; [done | done |].
  by intros [].
Qed.

End DrawingTheorems.

(** ** The pointer-up handler, the debounce and the buttons: theorems *)

Section HandlerTheorems.

Context {Point PointerEvent : Type} (env : Env Point PointerEvent).

Lemma run_handler_store (m : M Point unit) (w : World Point) :
  canvas_store (run_handler m w) = canvas_store (m w).2.
Proof. unfold run_handler, detached. by destruct (m w) as [[| |] w']. Qed.

Lemma run_handler_predict_calls (m : M Point unit) (w : World Point) :
  predict_calls (trace (run_handler m w)) = predict_calls (trace (m w).2).
Proof.
  unfold run_handler, detached. destruct (m w) as [[| |] w']; try done.
  cbn. unfold predict_calls. rewrite List.filter_app, length_app. simpl. lia.
Qed.

Lemma activateDraw_run (e : PointerEvent) (w : World Point) :
  activateDraw env e w
  = (Returned tt,
     with_strokes (strokes (canvas_store w) ++ [[getCoordinates env e]])
       (with_drawing true w)).
Proof. reflexivity. Qed.

(** The clock never touches the strokes. *)
Lemma advance_strokes (t : Z) (p : Page Point PointerEvent) :
  strokes (canvas_store (world (advance env t p)))
  = strokes (canvas_store (world p)).
Proof.
  unfold advance. destruct (pending p) as [[due e]|]; [|done].
  case_decide; [|done]. cbn [world].
  by rewrite run_handler_store, deactivateDrawAndPredict_run, pointer_up_run_store.
Qed.

Lemma run_pen_strokes (l : list (PenEvent PointerEvent)) :
  ∀ w,
    strokes (canvas_store (run_pen env w l))
    = strokes (canvas_store w) ++ strokes_begun env l.
Proof.
  induction l as [|i l IH]; intros w.
  - by rewrite app_nil_r.
  - unfold run_pen in *. cbn [foldl]. rewrite IH.
    rewrite run_handler_store. destruct i as [e|e]; cbn [pen_handler].
    + rewrite activateDraw_run. cbn. by rewrite <- app_assoc.
    + by rewrite deactivateDrawAndPredict_run, pointer_up_run_store.
Qed.

(** C7. The pointer-up handler leaves the drawing flag false and the strokes
    as they were, whatever else it does and however it ends; so over any
    sequence of pen-downs and pen-ups the strokes only grow, by the stroke
    each pen-down begins. *)
Theorem pointer_up_keeps_strokes :
  (∀ (e : PointerEvent) (w : World Point),
     let w' := (deactivateDrawAndPredict env e w).2 in
     drawing (canvas_store w') = false
     ∧ strokes (canvas_store w') = strokes (canvas_store w))
  ∧ (∀ (w : World Point) (l : list (PenEvent PointerEvent)),
       strokes (canvas_store (run_pen env w l))
       = strokes (canvas_store w) ++ strokes_begun env l).
Proof.
  split.
  - intros e w. cbn zeta.
    by rewrite deactivateDrawAndPredict_run, pointer_up_run_store.
  - intros w l. apply run_pen_strokes.
Qed.

Lemma showPredictions_no_model (w : World Point) :
  model w = None →
  showPredictions env w
  = (Thrown (TypeError
       (if data w
        then "cannot read properties of undefined (reading 'predict')"
        else "cannot read properties of undefined (reading 'getTestData')")),
     w).
Proof.
  intros Hm. unfold showPredictions.
  rewrite !bind_gets, Hm. by destruct (data w).
Qed.

Lemma run_handler_thrown (m : M Point unit) (w : World Point) err :
  (m w).1 = Thrown err →
  trace (run_handler m w) = trace (m w).2 ++ [Uncaught err].
Proof.
  unfold run_handler, detached. destruct (m w) as [[| |] w']; try done.
  cbn [fst snd]. by intros [= ->].
Qed.

(** C3, as the code has it. No path checks whether a model is there.  With
    no model, the pointer-up handler makes no call out of the page and writes
    no status, on any path.  With a stroke open it ends in an exception that
    nothing in the handler catches, so that the event loop reports it as
    uncaught; and when the raster reads and the crop succeed on a 28 x 28
    scaled raster, the handler has cropped, resampled and encoded as usual
    before the exception, which is the [TypeError] of evaluating
    [model.predict] on [undefined].  The predict button ends its
    [showPredictions] in a [TypeError] the same way: of [data.getTestData]
    when no data was loaded, of [model.predict] otherwise. *)
Theorem predict_without_model_raises (e : PointerEvent) (w : World Point) :
  model w = None →
  let r := deactivateDrawAndPredict env e w in
  trace r.2 = trace w
  ∧ (drawing (canvas_store w) = true →
     ∃ err, r.1 = Thrown err
            ∧ trace (run_handler (deactivateDrawAndPredict env e) w)
              = trace w ++ [Uncaught err])
  ∧ (∀ img crop scaled,
       drawing (canvas_store w) = true →
       getImageData env (dom w) input_canvas = Normal img →
       centerCrop env img = Normal crop →
       getImageData env (dom (resampled crop (with_drawing false w)))
         input_canvas_scaled = Normal scaled →
       length (img_data scaled) = 4 * 28 * 28 →
       r = (Thrown (TypeError
                      "cannot read properties of undefined (reading 'predict')"),
            emit input_canvas_scaled [RestoreState]
              (resampled crop (with_drawing false w))))
  ∧ predictButtonCallback env w
    = (Returned tt,
       called
         [Uncaught
            (TypeError
               (if data w
                then "cannot read properties of undefined (reading 'predict')"
                else "cannot read properties of undefined (reading 'getTestData')"))]
         w).
Proof.
  intros Hm r.
  destruct (pointer_up_run_no_model env w Hm) as [Htrace Hthrown].
  split_and!.
  - subst r. by rewrite deactivateDrawAndPredict_run.
  - intros Hd. destruct (Hthrown Hd) as [err Herr]. exists err.
    subst r. rewrite deactivateDrawAndPredict_run. split; [done|].
    rewrite (run_handler_thrown _ _ err)
      by (by rewrite deactivateDrawAndPredict_run).
    by rewrite deactivateDrawAndPredict_run, Htrace.
  - intros img crop scaled Hd Himg Hcrop Hscaled Hlen.
    subst r. rewrite deactivateDrawAndPredict_run. unfold pointer_up_run.
    rewrite Hd, Himg, Hcrop. cbn zeta. rewrite Hscaled, Hm.
    unfold tensor4d. rewrite length_alpha_vector, Hlen.
    case_decide as Hn; [done | by contradict Hn].
  - unfold predictButtonCallback, detached.
    by rewrite (showPredictions_no_model w Hm).
Qed.

(** The pointer-up handler leaves the drawing canvas alone, however it
    ends. *)
Lemma pointer_up_run_input (w : World Point) :
  cv_input (dom (pointer_up_run env w).2) = cv_input (dom w).
Proof. unfold pointer_up_run. repeat case_match; reflexivity. Qed.

Lemma run_handler_dom (m : M Point unit) (w : World Point) :
  dom (run_handler m w) = dom (m w).2.
Proof. unfold run_handler, detached. by destruct (m w) as [[| |] w']. Qed.

(** C5, as the code has it. The tap that makes a one-point stroke draws
    nothing: the pointer-down records the point, the pointer-up handler leaves
    the drawing canvas as it was, and a pointer-move that follows is ignored.
    A one-point stroke is rendered when a pointer-move of a later stroke makes
    [draw] redraw every stroke: [draw] then returns without an exception, asks
    for no midpoint for that stroke, and gives for it, after the line width
    and the round cap are set and between the paths of the strokes before and
    after it, the path from the point to the point itself, stroked. *)
Theorem one_point_stroke_is_drawn_by_a_later_move :
  (∀ (e0 e1 : PointerEvent) (w : World Point),
     let w1 := run_handler (deactivateDrawAndPredict env e1)
                 (run_handler (activateDraw env e0) w) in
     cv_input (dom w1) = cv_input (dom w)
     ∧ canvas_store w1
       = mkCanvasStore (strokes (canvas_store w) ++ [[getCoordinates env e0]]) false
     ∧ ∀ e, draw env e w1 = (Returned tt, w1))
  ∧ (∀ (e : PointerEvent) (w : World Point) before (p : Point) after l,
       drawing (canvas_store w) = true →
       strokes (canvas_store w) = before ++ [p] :: after ++ [l] →
       Forall (fun stroke => stroke ≠ []) before →
       Forall (fun stroke => stroke ≠ []) after →
       draw env e w
       = (Returned tt,
          emit input_canvas
            (concat (map (path_of env) before)
             ++ [BeginPath; MoveTo p; LineTo p; Stroke]
             ++ concat (map (path_of env) (after ++ [l ++ [getCoordinates env e]])))
            (with_strokes (before ++ [p] :: after ++ [l ++ [getCoordinates env e]])
               (emit input_canvas
                  [ SetLineWidth 20; SetLineCap "round"; SetLineJoin "round";
                    SetStrokeStyle "#393E46";
                    ClearRect 0 0 (cv_width (cv_input (dom w)))
                      (cv_height (cv_input (dom w))) ] w)))).
Proof.
  split.
  - intros e0 e1 w w1.
    assert (Hstore : canvas_store w1
              = mkCanvasStore (strokes (canvas_store w) ++ [[getCoordinates env e0]])
                  false).
    { subst w1.
      rewrite run_handler_store, deactivateDrawAndPredict_run, pointer_up_run_store.
      by rewrite run_handler_store, activateDraw_run. }
    split_and!; [| done |].
    + subst w1.
      rewrite run_handler_dom, deactivateDrawAndPredict_run, pointer_up_run_input.
      by rewrite run_handler_dom, activateDraw_run.
    + intros e. unfold draw. rewrite bind_gets, Hstore. reflexivity.
  - intros e w before p after l Hd Hss Hb Ha.
    rewrite (draw_run env e w (before ++ [p] :: after) l Hd).
    + rewrite <- !app_assoc. cbn [app].
      by rewrite map_app, concat_app.
    + by rewrite <- app_assoc.
    + apply Forall_app. split; [done|]. by apply Forall_cons.
Qed.

(** C2, as the code has it. The pointer-up handler never looks whether the
    canvas holds ink.  It stops early only when no stroke is open.  With a
    stroke open, whatever the canvas holds and whatever the cropper does, a
    run either ends in an exception or calls [predict]; and when the model is
    loaded, the browser and the cropper return and the scaled raster is
    28 x 28, [predict] is called on the encoded raster, blank or not. *)
Theorem pointer_up_does_not_look_for_ink (e : PointerEvent) (w : World Point) :
  (drawing (canvas_store w) = false →
   deactivateDrawAndPredict env e w = (Returned tt, w))
  ∧ (drawing (canvas_store w) = true →
     (∃ err, (deactivateDrawAndPredict env e w).1 = Thrown err)
     ∨ ((deactivateDrawAndPredict env e w).1 = Returned tt
        ∧ ∃ m x out,
            trace (deactivateDrawAndPredict env e w).2
            = trace w ++ [Predict m x; UpdatePredict out]))
  ∧ (∀ m scaled,
       pipeline_ready env w m scaled →
       trace (deactivateDrawAndPredict env e w).2
       = trace w ++ Predict m (input_tensor scaled)
           :: match predict env m (input_tensor scaled) with
              | Normal out => [UpdatePredict out]
              | Abrupt _ => []
              end).
Proof.
  rewrite deactivateDrawAndPredict_run. split_and!.
  - apply pointer_up_run_calls.
  - apply pointer_up_run_open.
  - intros m scaled Hready. by apply pointer_up_run_ready.
Qed.

End HandlerTheorems.

(** ** The load button: which key the fallback saves under *)

(** C8, at the input where the code departs from it. With the dense
    architecture selected and nothing stored, the load button catches the
    failed load, creates the dense model and trains it, and then saves it
    under the key of the convolutional architecture; nothing is stored under
    the key the next load of the dense architecture will read.  The train
    button, on the same page, saves under the dense key. *)
Theorem load_fallback_saves_under_first_key {Point PointerEvent : Type}
    (env : Env Point PointerEvent) (w : World Point) :
  let w0 := set_modelTypeId "DenseNet" (set_indexeddb ∅ w) in
  let dense := mkModel (layers (createDenseModel env)) true in
  (loadButtonCallback env w0).1 = Returned tt
  ∧ model (loadButtonCallback env w0).2 = Some dense
  ∧ indexeddb (loadButtonCallback env w0).2 !! "indexeddb://my-model-1" = Some dense
  ∧ indexeddb (loadButtonCallback env w0).2 !! "indexeddb://my-model-2" = None
  ∧ indexeddb (trainButtonCallback env w0).2 !! "indexeddb://my-model-2" = Some dense
  ∧ indexeddb (trainButtonCallback env w0).2 !! "indexeddb://my-model-1" = None.
Proof.
  destruct env as [H W gc gm cc gid pr gtd].
  destruct w as [cs m dt d mt db tr].
  cbv zeta. split_and!; vm_compute; destruct (pr _ _); reflexivity.
Qed.

(** ** The concrete page: rasters *)

Lemma uniform_lookup (r g b a : byte) (n : nat) :
  ∀ k, concat (replicate n [r; g; b; a]) !! (4 * k + 3)
       = if decide (k < n) then Some a else None.
Proof.
  induction n as [|n IH]; intros k.
  - by case_decide; [lia|].
  - cbn [replicate concat]. destruct k as [|k].
    + by case_decide; [|lia].
    + replace (4 * S k + 3) with (length [r; g; b; a] + (4 * k + 3))
        by (simpl; lia).
      rewrite lookup_app_r, Nat.add_comm, Nat.add_sub by lia.
      rewrite IH. repeat case_decide; done || lia.
Qed.

Lemma uniform_raster_alpha (w h : nat) (r g b a : byte) (x y : nat) :
  x < w → y < h → alpha_at (uniform_raster w h r g b a) x y = Some a.
Proof.
  intros Hx Hy. unfold alpha_at, pixel_alpha, uniform_raster.
  cbn [img_data img_width]. rewrite uniform_lookup.
  case_decide; [done | nia].
Qed.

Lemma transparent_raster_blank (w h : nat) (k : nat) (a : byte) :
  pixel_alpha (img_data (uniform_raster w h x00 x00 x00 x00)) k = Some a → a = x00.
Proof.
  unfold pixel_alpha, uniform_raster. cbn [img_data]. rewrite uniform_lookup.
  case_decide; congruence.
Qed.

(** ** The statements at the concrete page *)

Lemma tensor_encoder_28x28_witness :
  raster28 opaque_ink
  ∧ encode (img_data opaque_ink) = Some (replicate 784 (Some 1%float)).
Proof.
  assert (H : raster28 opaque_ink) by (split_and!; vm_compute; reflexivity).
  split; [exact H|].
  destruct (tensor_encoder_28x28 opaque_ink H)
    as (input & Hencode & _ & _ & _ & _ & Hopaque).
  rewrite Hencode. f_equal. apply Hopaque.
  intros x y Hx Hy. by apply uniform_raster_alpha.
Defined.

Lemma encoder_ignores_rgb_witness :
  raster28 opaque_ink
  ∧ raster28 black_ink
  ∧ (∀ x y, x < 28 → y < 28 → alpha_at opaque_ink x y = alpha_at black_ink x y)
  ∧ encode (img_data opaque_ink) = encode (img_data black_ink).
Proof.
  assert (H1 : raster28 opaque_ink) by (split_and!; vm_compute; reflexivity).
  assert (H2 : raster28 black_ink) by (split_and!; vm_compute; reflexivity).
  assert (H3 : ∀ x y, x < 28 → y < 28 →
                alpha_at opaque_ink x y = alpha_at black_ink x y).
  { intros x y Hx Hy. unfold opaque_ink, black_ink.
    by rewrite !uniform_raster_alpha. }
  split_and!; [exact H1 | exact H2 | exact H3 |].
  exact (encoder_ignores_rgb opaque_ink black_ink H1 H2 H3).
Defined.

Lemma draw_without_pointer_down_witness :
  drawing (canvas_store fresh_world) = false
  ∧ draw demo_env (3, 4)%Z fresh_world = (Returned tt, fresh_world).
Proof.
  split; [reflexivity|].
  apply (draw_without_pointer_down demo_env). reflexivity.
Defined.

Lemma predict_without_model_raises_witness :
  model untrained_tapped_world = None
  ∧ trace (deactivateDrawAndPredict demo_env (28, 28)%Z untrained_tapped_world).2
    = trace untrained_tapped_world
  ∧ predictButtonCallback demo_env untrained_tapped_world
    = (Returned tt,
       called
         [Uncaught
            (TypeError "cannot read properties of undefined (reading 'getTestData')")]
         untrained_tapped_world).
Proof.
  assert (Hm : model untrained_tapped_world = None) by reflexivity.
  destruct (predict_without_model_raises demo_env (28, 28)%Z
              untrained_tapped_world Hm) as (Htrace & _ & _ & Hbutton).
  split_and!; [exact Hm | exact Htrace | exact Hbutton].
Defined.

(** C3, refuted as stated. No model was trained or loaded and a stroke is
    open.  The pointer-up handler does not stop to surface an error state: it
    crops, draws the crop scaled on the 28 x 28 canvas and encodes, and then
    tries the call [model.predict], which is where it fails.  What the page
    gets is the uncaught [TypeError] of that call, and nothing else. *)
Lemma pipeline_runs_without_model :
  model untrained_tapped_world = None
  ∧ (deactivateDrawAndPredict demo_env (28, 28)%Z untrained_tapped_world).1
    = Thrown (TypeError "cannot read properties of undefined (reading 'predict')")
  ∧ cv_ops (cv_scaled (dom (deactivateDrawAndPredict demo_env (28, 28)%Z
                              untrained_tapped_world).2))
    = [ SaveState; Scale 0.5%float 0.5%float; ClearRect 0 0 56 56;
        DrawImage input_canvas_centercrop 0 0; RestoreState ]
  ∧ cv_ops (cv_centercrop (dom (deactivateDrawAndPredict demo_env (28, 28)%Z
                                  untrained_tapped_world).2))
    = [ PutImageData (uniform_raster 56 56 x00 x00 x00 x00) 0 0 ]
  ∧ trace (run_handler (deactivateDrawAndPredict demo_env (28, 28)%Z)
             untrained_tapped_world)
    = [ Uncaught
          (TypeError "cannot read properties of undefined (reading 'predict')") ].
Proof.
  split_and!; vm_compute; reflexivity.
Qed.

Lemma one_point_stroke_is_drawn_by_a_later_move_witness :
  drawing (canvas_store
             (run_handler (activateDraw demo_env (40, 40)%Z)
                (run_handler (deactivateDrawAndPredict demo_env (28, 28)%Z)
                   tapped_world)))
  = true
  ∧ cv_ops (cv_input
              (dom (draw demo_env (42, 44)%Z
                      (run_handler (activateDraw demo_env (40, 40)%Z)
                         (run_handler (deactivateDrawAndPredict demo_env (28, 28)%Z)
                            tapped_world))).2))
    = [ SetLineWidth 20; SetLineCap "round"; SetLineJoin "round";
        SetStrokeStyle "#393E46"; ClearRect 0 0 56 56;
        BeginPath; MoveTo (28, 28)%Z; LineTo (28, 28)%Z; Stroke;
        BeginPath; MoveTo (40, 40)%Z;
        QuadraticCurveTo (40, 40)%Z (41, 42)%Z;
        LineTo (42, 44)%Z; Stroke ].
Proof.
  set (w := run_handler (activateDraw demo_env (40, 40)%Z)
              (run_handler (deactivateDrawAndPredict demo_env (28, 28)%Z)
                 tapped_world)).
  assert (Hd : drawing (canvas_store w) = true) by (vm_compute; reflexivity).
  assert (Hs : strokes (canvas_store w)
               = [] ++ [(28, 28)%Z] :: [] ++ [[(40, 40)%Z]])
    by (vm_compute; reflexivity).
  split; [exact Hd|].
  rewrite (proj2 (one_point_stroke_is_drawn_by_a_later_move demo_env)
             (42, 44)%Z w [] (28, 28)%Z [] [(40, 40)%Z] Hd Hs
             (Forall_nil_2 _) (Forall_nil_2 _)).
  vm_compute. reflexivity.
Defined.

(** C5, refuted as stated. A tap on the trained page, a pointer-down and the
    pointer-up handler after it: the stroke of one point is recorded, and
    nothing at all was drawn on the canvas, no dot either; the handler went on
    to predict on the blank raster. *)
Lemma tap_draws_nothing :
  cv_ops (cv_input (dom trained_world)) = []
  ∧ strokes (canvas_store
               (run_handler (deactivateDrawAndPredict demo_env (28, 28)%Z)
                  (run_handler (activateDraw demo_env (28, 28)%Z) trained_world)))
    = [[(28, 28)%Z]]
  ∧ cv_ops (cv_input
              (dom (run_handler (deactivateDrawAndPredict demo_env (28, 28)%Z)
                      (run_handler (activateDraw demo_env (28, 28)%Z)
                         trained_world))))
    = []
  ∧ trace (run_handler (deactivateDrawAndPredict demo_env (28, 28)%Z)
             (run_handler (activateDraw demo_env (28, 28)%Z) trained_world))
    = [ Predict trained_model
          (mkTensor (replicate 784 (Some 0%float)) [1; 28; 28; 1]);
        UpdatePredict (replicate 10 0.125%float) ].
Proof.
  split_and!; vm_compute; reflexivity.
Qed.

Lemma tapped_world_ready : pipeline_ready demo_env tapped_world trained_model transparent28.
Proof.
  split_and!; [reflexivity | reflexivity |].
  exists (uniform_raster 56 56 x00 x00 x00 x00), (uniform_raster 56 56 x00 x00 x00 x00).
  split_and!; vm_compute; reflexivity.
Defined.

Lemma pointer_up_does_not_look_for_ink_witness :
  pipeline_ready demo_env tapped_world trained_model transparent28
  ∧ trace (deactivateDrawAndPredict demo_env (28, 28)%Z tapped_world).2
    = trace tapped_world ++ Predict trained_model (input_tensor transparent28)
        :: match predict demo_env trained_model (input_tensor transparent28) with
           | Normal out => [UpdatePredict out]
           | Abrupt _ => []
           end.
Proof.
  split; [exact tapped_world_ready|].
  destruct (pointer_up_does_not_look_for_ink demo_env (28, 28)%Z tapped_world)
    as (_ & _ & Hready).
  exact (Hready trained_model transparent28 tapped_world_ready).
Defined.

(** C2, refuted as stated. Nothing was drawn on the canvas and the browser
    reads it as fully transparent; a pointer-down opened a stroke.  With a
    cropper that returns, the pointer-up handler runs to its end, having
    encoded the blank raster and called [predict] on the 784 zeros; with a
    cropper that fails, the handler ends in the cropper's exception. *)
Lemma blank_canvas_is_sent_to_predict :
  cv_ops (cv_input (dom tapped_world)) = []
  ∧ blank_canvas demo_env tapped_world
  ∧ trace tapped_world = []
  ∧ deactivateDrawAndPredict demo_env (28, 28)%Z tapped_world
    = (Returned tt,
       called [ Predict trained_model
                  (mkTensor (replicate 784 (Some 0%float)) [1; 28; 28; 1]);
                UpdatePredict (replicate 10 0.125%float) ]
         (emit input_canvas_scaled [RestoreState]
            (resampled (uniform_raster 56 56 x00 x00 x00 x00)
               (with_drawing false tapped_world))))
  ∧ deactivateDrawAndPredict failing_crop_env (28, 28)%Z tapped_world
    = (Thrown (Error "Invalid typed array length"),
       with_drawing false tapped_world).
Proof.
  split_and!.
  - reflexivity.
  - exists (uniform_raster 56 56 x00 x00 x00 x00). split; [reflexivity|].
    intros k a. apply transparent_raster_blank.
  - reflexivity.
  - vm_compute. reflexivity.
  - vm_compute. reflexivity.
Qed.

(** C9, refuted as stated. Two pointer-ups a tenth of a second apart on the
    trained page, with no stroke open: the debounced handler runs once the
    wait has passed and returns at once, and no inference call is made. *)
Lemma pointer_ups_without_stroke :
  pending trained_page = None
  ∧ model trained_world = Some trained_model
  ∧ burst 0 [(100, (5, 5))]%Z
  ∧ predict_calls (trace trained_world) = 0
  ∧ predict_calls
      (trace (world (advance demo_env 300
                       (run_inputs demo_env trained_page
                          (pointer_ups [(0, (5, 5)); (100, (5, 5))]%Z)))))
    = 0.
Proof.
  split_and!; try reflexivity.
  vm_compute. intuition discriminate.
Qed.

Lemma draw_redraws_all_strokes_witness :
  drawing (canvas_store tapped_world) = true
  ∧ strokes (canvas_store tapped_world) = [] ++ [[(28, 28)%Z]]
  ∧ Forall (fun stroke : list (Z * Z) => stroke ≠ []) []
  ∧ cv_ops (cv_input (dom (draw demo_env (30, 40)%Z tapped_world).2))
    = [ SetLineWidth 20; SetLineCap "round"; SetLineJoin "round";
        SetStrokeStyle "#393E46"; ClearRect 0 0 56 56;
        BeginPath; MoveTo (28, 28)%Z;
        QuadraticCurveTo (28, 28)%Z (29, 34)%Z;
        LineTo (30, 40)%Z; Stroke ].
Proof.
  assert (Hd : drawing (canvas_store tapped_world) = true) by reflexivity.
  assert (Hs : strokes (canvas_store tapped_world) = [] ++ [[(28, 28)%Z]])
    by reflexivity.
  assert (Hne : Forall (fun stroke : list (Z * Z) => stroke ≠ []) [])
    by constructor.
  split_and!; [exact Hd | exact Hs | exact Hne |].
  rewrite (draw_redraws_all_strokes demo_env (30, 40)%Z tapped_world
             [] [(28, 28)%Z] Hd Hs Hne).
  reflexivity.
Defined.

(** ** Sequences of canvas handler calls: theorems *)

Section SessionTheorems.

Context {Point PointerEvent : Type} (env : Env Point PointerEvent).

Lemma run_handler_returned (m : M Point unit) (w w' : World Point) :
  m w = (Returned tt, w') → run_handler m w = w'.
Proof. unfold run_handler, detached. by intros ->. Qed.

Lemma nonempty_snoc {A} (l : list A) : l ≠ [] → ∃ l' x, l = l' ++ [x].
Proof.
  destruct l as [|a l] using rev_ind; [done|]. intros _. by exists l, a.
Qed.

(** A pointer-move in a consistent session returns, keeps the session
    consistent and calls nothing. *)
Lemma draw_session (e : PointerEvent) (w : World Point) :
  session_ok (canvas_store w) →
  ∃ w', draw env e w = (Returned tt, w')
        ∧ session_ok (canvas_store w')
        ∧ trace w' = trace w
        ∧ (drawing (canvas_store w) = false → w' = w)
        ∧ ∀ ss l, drawing (canvas_store w) = true →
                  strokes (canvas_store w) = ss ++ [l] →
                  canvas_store w'
                  = mkCanvasStore (ss ++ [l ++ [getCoordinates env e]]) true.
Proof.
  intros [Hne Hopen].
  destruct (drawing (canvas_store w)) eqn:Hd.
  - destruct (nonempty_snoc _ (Hopen eq_refl)) as (ss & l & Hss).
    rewrite Hss in Hne. apply Forall_app in Hne as [Hss_ne _].
    eexists. split; [by apply (draw_run env e w ss l)|].
    split_and!; [| done | done |].
    + split; cbn; [|intros _; by destruct ss].
      apply Forall_app. split; [done|].
      apply Forall_singleton. by destruct l.
    + intros ss' l' _ Hss'. rewrite Hss in Hss'.
      apply app_inj_tail in Hss' as [<- <-]. cbn. by rewrite Hd.
  - exists w. split.
    { unfold draw. by rewrite bind_gets, Hd. }
    split_and!; try done.
    split; [done|]. by rewrite Hd.
Qed.

(** Each of the four handlers keeps the session consistent. *)
Lemma canvas_handler_session (c : CanvasCall PointerEvent) (w : World Point) :
  session_ok (canvas_store w) →
  session_ok (canvas_store (run_handler (canvas_handler env c) w)).
Proof.
  intros Hok. rewrite run_handler_store. destruct c as [e|e|e|]; cbn [canvas_handler].
  - rewrite activateDraw_run. destruct Hok as [Hne _]. split; cbn.
    + apply Forall_app. split; [done|]. by apply Forall_singleton.
    + intros _. by destruct (strokes (canvas_store w)).
  - destruct (draw_session e w Hok) as (w' & -> & Hok' & _). done.
  - rewrite deactivateDrawAndPredict_run, pointer_up_run_store.
    destruct Hok as [Hne _]. by split.
  - split; cbn; [constructor | done].
Qed.

Lemma run_canvas_session (l : list (CanvasCall PointerEvent)) :
  ∀ w, session_ok (canvas_store w) →
       session_ok (canvas_store (run_canvas env w l)).
Proof.
  induction l as [|c l IH]; intros w Hok; [done|].
  unfold run_canvas in *. cbn [foldl]. apply IH.
  by apply canvas_handler_session.
Qed.

Lemma run_canvas_quiet (l : list (CanvasCall PointerEvent)) :
  ∀ w, session_ok (canvas_store w) →
       forallb (fun c => negb (is_deactivate c)) l = true →
       trace (run_canvas env w l) = trace w.
Proof.
  induction l as [|c l IH]; intros w Hok Hl; [done|].
  cbn [forallb] in Hl. apply andb_prop in Hl as [Hc Hl].
  unfold run_canvas in *. cbn [foldl].
  rewrite IH; [| by apply canvas_handler_session | done].
  destruct c as [e|e|e|]; try discriminate Hc; cbn [canvas_handler].
  - by rewrite (run_handler_returned _ _ _ (activateDraw_run env e w)).
  - destruct (draw_session e w Hok) as (w' & Hrun & _ & Htrace & _).
    by rewrite (run_handler_returned _ _ _ Hrun).
  - reflexivity.
Qed.

(** X4. From a consistent drawing session (every stroke has a point, and a
    stroke exists while one is open), any sequence of calls of the four canvas
    handlers leaves the session consistent, so that a pointer-move arriving
    next returns without an exception; and as long as the pointer-up handler
    is not among the calls, nothing is called outside the page and no
    exception is reported. *)
Theorem canvas_session_invariant (w : World Point) (l : list (CanvasCall PointerEvent)) :
  session_ok (canvas_store w) →
  session_ok (canvas_store (run_canvas env w l))
  ∧ (∀ e, (draw env e (run_canvas env w l)).1 = Returned tt)
  ∧ (forallb (fun c => negb (is_deactivate c)) l = true →
     trace (run_canvas env w l) = trace w).
Proof.
  intros Hok. split_and!.
  - by apply run_canvas_session.
  - intros e.
    destruct (draw_session e (run_canvas env w l)) as (w' & -> & _); [|done].
    by apply run_canvas_session.
  - by apply run_canvas_quiet.
Qed.

Lemma draws_record (es : list PointerEvent) :
  ∀ w ss l,
    session_ok (canvas_store w) →
    drawing (canvas_store w) = true →
    strokes (canvas_store w) = ss ++ [l] →
    canvas_store (run_canvas env w (map CallDraw es))
    = mkCanvasStore (ss ++ [l ++ map (getCoordinates env) es]) true.
Proof.
  induction es as [|e es IH]; intros w ss l Hok Hd Hss.
  - cbn. rewrite app_nil_r, <- Hss, <- Hd. by destruct (canvas_store w).
  - unfold run_canvas in *. cbn [map foldl canvas_handler].
    destruct (draw_session e w Hok) as (w' & Hrun & Hok' & _ & _ & Hstore).
    rewrite (run_handler_returned _ _ _ Hrun).
    specialize (Hstore ss l Hd Hss).
    rewrite (IH w' ss (l ++ [getCoordinates env e]) Hok');
      [| by rewrite Hstore | by rewrite Hstore].
    by rewrite <- app_assoc.
Qed.

(** X5. A gesture, a pointer-down followed by any number of pointer-moves,
    started in a consistent session, leaves the strokes recorded before as
    they were and adds one stroke that holds the points of the gesture's
    events in the order they arrived; the stroke stays open. *)
Theorem gesture_records_points (w : World Point)
    (e0 : PointerEvent) (es : list PointerEvent) :
  session_ok (canvas_store w) →
  canvas_store (run_canvas env w (gesture e0 es))
  = mkCanvasStore
      (strokes (canvas_store w)
         ++ [getCoordinates env e0 :: map (getCoordinates env) es])
      true.
Proof.
  intros Hok. unfold gesture, run_canvas. cbn [foldl].
  change (foldl _ ?w0 (map CallDraw es)) with (run_canvas env w0 (map CallDraw es)).
  pose proof (canvas_handler_session (CallActivateDraw e0) w Hok) as Hok'.
  cbn [canvas_handler] in *.
  rewrite (run_handler_returned _ _ _ (activateDraw_run env e0 w)) in *.
  by rewrite (draws_record es _ (strokes (canvas_store w)) [getCoordinates env e0]).
Qed.

(** X6. Once the pointer-up handler has run, in whatever way it ended, a
    second run before the next pointer-down does nothing at all; nor does a
    run that follows [clear]. *)
Theorem pointer_up_runs_once (e e' : PointerEvent) (w : World Point) :
  let w1 := (deactivateDrawAndPredict env e w).2 in
  let w2 := (clear w).2 in
  deactivateDrawAndPredict env e' w1 = (Returned tt, w1)
  ∧ deactivateDrawAndPredict env e' w2 = (Returned tt, w2)
  ∧ run_handler (deactivateDrawAndPredict env e')
      (run_handler (deactivateDrawAndPredict env e) w)
    = run_handler (deactivateDrawAndPredict env e) w.
Proof.
  cbn zeta.
  assert (Hoff : ∀ w0 : World Point,
            drawing (canvas_store w0) = false →
            deactivateDrawAndPredict env e' w0 = (Returned tt, w0)).
  { intros w0 Hd. rewrite deactivateDrawAndPredict_run.
    by apply pointer_up_run_calls. }
  split_and!.
  - apply Hoff. by rewrite deactivateDrawAndPredict_run, pointer_up_run_store.
  - by apply Hoff.
  - apply run_handler_returned, Hoff.
    by rewrite run_handler_store, deactivateDrawAndPredict_run, pointer_up_run_store.
Qed.

(** X7. The pointer-up handler, however it ends, leaves the drawing canvas,
    the size of the 28 x 28 canvas, the model, the data, the selected model
    type and the model store as they were; and once the cropper has returned,
    the crop canvas has the size of the crop and holds the crop and nothing
    drawn before. *)
Theorem pointer_up_frame (e : PointerEvent) (w : World Point) :
  let w' := (deactivateDrawAndPredict env e w).2 in
  cv_input (dom w') = cv_input (dom w)
  ∧ cv_width (cv_scaled (dom w')) = cv_width (cv_scaled (dom w))
  ∧ cv_height (cv_scaled (dom w')) = cv_height (cv_scaled (dom w))
  ∧ model w' = model w
  ∧ data w' = data w
  ∧ modelTypeId w' = modelTypeId w
  ∧ indexeddb w' = indexeddb w
  ∧ ∀ img crop,
      drawing (canvas_store w) = true →
      getImageData env (dom w) input_canvas = Normal img →
      centerCrop env img = Normal crop →
      cv_centercrop (dom w')
      = mkCanvas (img_width crop) (img_height crop) [PutImageData crop 0 0].
Proof.
  cbn zeta. rewrite deactivateDrawAndPredict_run. unfold pointer_up_run.
  split_and!; try (repeat case_match; first [reflexivity | eassumption]).
  intros img crop -> -> ->. cbn zeta.
  repeat case_match; reflexivity.
Qed.

End SessionTheorems.

(** ** The button callbacks: theorems *)

Section ButtonTheorems.

Context {Point PointerEvent : Type} (env : Env Point PointerEvent).

Lemma bind_run {A B} (m : M Point A) (k : A → M Point B) w a w' :
  m w = (Returned a, w') → (m ≫= k) w = k a w'.
Proof. unfold mbind, M_bind, bind. by intros ->. Qed.

Lemma bind_thrown {A B} (m : M Point A) (k : A → M Point B) w e w' :
  m w = (Thrown e, w') → (m ≫= k) w = (Thrown e, w').
Proof. unfold mbind, M_bind, bind. by intros ->. Qed.

Lemma try_catch_returned {A} (body : M Point A) handler w a w' :
  body w = (Returned a, w') → try_catch body handler w = (Returned a, w').
Proof. unfold try_catch. by intros ->. Qed.

Lemma try_catch_thrown {A} (body : M Point A) handler w e w' :
  body w = (Thrown e, w') → try_catch body handler w = handler e w'.
Proof. unfold try_catch. by intros ->. Qed.

Lemma load_run (w : World Point) :
  load w = (Returned tt, set_data true (called [LoadMnistData] w)).
Proof. reflexivity. Qed.

(** [createModel] reads the selected model type and nothing else. *)
Lemma createModel_frame (w w' : World Point) :
  modelTypeId w' = modelTypeId w →
  createModel env w' = ((createModel env w).1, w').
Proof.
  intros Ht. unfold createModel. rewrite !bind_gets, Ht.
  by repeat case_decide.
Qed.

Lemma createModel_invalid (w : World Point) :
  modelTypeId w ≠ "ConvNet" →
  modelTypeId w ≠ "DenseNet" →
  createModel env w
  = (Thrown (Error ("Invalid model type: " +:+ modelTypeId w)), w).
Proof.
  intros H1 H2. unfold createModel. rewrite bind_gets.
  by rewrite !decide_False.
Qed.

Lemma model_summary_run (w : World Point) m :
  model w = Some m →
  model_summary w = (Returned tt, called [ModelSummary m] w).
Proof. intros Hm. unfold model_summary. by rewrite bind_gets, Hm. Qed.

Lemma train_run (w : World Point) m :
  model w = Some m →
  data w = true →
  train w
  = (Returned tt,
     set_model (Some (fitted m)) (called [LogStatus "Training model..."; Train m] w)).
Proof.
  intros Hm Hd. unfold train, call.
  rewrite bind_modify, !bind_gets.
  change (model (called _ w)) with (model w).
  change (data (called _ w)) with (data w).
  rewrite Hm, Hd, bind_modify. unfold modify. by rewrite called_called.
Qed.

Lemma model_save_run (key : string) (w : World Point) m :
  model w = Some m →
  model_save key w = (Returned tt, stored key m (called [SaveModel key m] w)).
Proof. intros Hm. unfold model_save. by rewrite bind_gets, Hm. Qed.

Lemma loadModel_run (key : string) (w : World Point) :
  loadModel key w
  = (match indexeddb w !! key with
     | Some m => Returned m
     | None => Thrown (Error ("Cannot find model with path " +:+ key))
     end,
     called [LoadModel key] w).
Proof.
  unfold loadModel, call. rewrite bind_modify, bind_gets.
  change (indexeddb (called _ w)) with (indexeddb w).
  by destruct (indexeddb w !! key).
Qed.

(** The choice of the key, by the model type, in the [try] block. *)
Lemma load_by_type_run (t : string) (w : World Point) :
  (if decide (t = "ConvNet")
   then call (ConsoleLog 1);; loadModel "indexeddb://my-model-1"
   else call (ConsoleLog 2);; loadModel "indexeddb://my-model-2") w
  = (match indexeddb w !! model_key t with
     | Some m => Returned m
     | None => Thrown (Error ("Cannot find model with path " +:+ model_key t))
     end,
     called [ConsoleLog (model_number t); LoadModel (model_key t)] w).
Proof.
  unfold model_key, model_number, call.
  case_decide; rewrite bind_modify, loadModel_run, called_called; done.
Qed.

(** The same choice at the end of the train button. *)
Lemma save_by_type_run (t : string) (w : World Point) m :
  model w = Some m →
  (if decide (t = "ConvNet")
   then call (ConsoleLog 1);; model_save "indexeddb://my-model-1"
   else call (ConsoleLog 2);; model_save "indexeddb://my-model-2") w
  = (Returned tt,
     stored (model_key t) m
       (called [ConsoleLog (model_number t); SaveModel (model_key t) m] w)).
Proof.
  intros Hm. unfold model_key, model_number, call.
  case_decide; rewrite bind_modify, (model_save_run _ _ m), called_called; done.
Qed.

Lemma showPredictions_detached (w : World Point) m :
  model w = Some m →
  data w = true →
  detached (showPredictions env) w = (Returned tt, called (predictions_shown env m) w).
Proof.
  intros Hm Hd. unfold detached, showPredictions, predictions_shown, call.
  rewrite !bind_gets, Hm, Hd, bind_modify.
  unfold mbind, M_bind, bind, lift.
  destruct (predict env m (getTestData env 100)) as [out|err].
  - unfold modify. by rewrite called_called.
  - unfold called at 3. cbn [trace set_trace called]. unfold called, set_trace.
    cbn. by rewrite <- app_assoc.
Qed.

(** The train button with a valid model type, run. *)
Lemma trainButtonCallback_run (w : World Point) m :
  createModel env w = (Returned m, w) →
  trainButtonCallback env w
  = (Returned tt,
     called (predictions_shown env (fitted m))
       (stored (model_key (modelTypeId w)) (fitted m)
          (called [ConsoleLog (model_number (modelTypeId w));
                   SaveModel (model_key (modelTypeId w)) (fitted m)]
             (set_model (Some (fitted m))
                (called [LogStatus "Training model..."; Train m]
                   (called [LogStatus "Starting model training..."]
                      (called [ModelSummary m]
                         (set_model (Some m)
                            (called [LogStatus "Creating model..."]
                               (set_data true
                                  (called [LoadMnistData]
                                     (called [LogStatus "Loading MNIST data..."]
                                        w)))))))))))).
Proof.
  intros Hcreate. unfold trainButtonCallback, call.
  rewrite bind_modify, (bind_run _ _ _ _ _ (load_run _)), bind_gets, bind_modify.
  erewrite bind_run; cycle 1.
  { rewrite (createModel_frame w) by reflexivity. by rewrite Hcreate. }
  rewrite bind_modify.
  erewrite bind_run by (by apply model_summary_run).
  rewrite bind_modify.
  erewrite bind_run by (by apply train_run).
  erewrite bind_run by (by apply save_by_type_run).
  by apply showPredictions_detached.
Qed.

(** The [try] block of the load button, run. *)
Lemma load_try_run (w : World Point) :
  (modelType ← gets modelTypeId;
   cache ← (if decide (modelType = "ConvNet")
            then call (ConsoleLog 1);; loadModel "indexeddb://my-model-1"
            else call (ConsoleLog 2);; loadModel "indexeddb://my-model-2");
   modify (set_model (Some cache));;
   model_summary) w
  = match indexeddb w !! model_key (modelTypeId w) with
    | Some m =>
        (Returned tt,
         called [ModelSummary m]
           (set_model (Some m)
              (called [ConsoleLog (model_number (modelTypeId w));
                       LoadModel (model_key (modelTypeId w))] w)))
    | None =>
        (Thrown (Error ("Cannot find model with path "
                        +:+ model_key (modelTypeId w))),
         called [ConsoleLog (model_number (modelTypeId w));
                 LoadModel (model_key (modelTypeId w))] w)
    end.
Proof.
  rewrite bind_gets.
  destruct (indexeddb w !! model_key (modelTypeId w)) as [m|] eqn:Hdb.
  - erewrite bind_run by (by rewrite load_by_type_run, Hdb).
    rewrite bind_modify. by apply model_summary_run.
  - erewrite bind_thrown; [done|]. by rewrite load_by_type_run, Hdb.
Qed.

(** The load button when a model is stored under the key of the selected
    type, run. *)
Lemma loadButtonCallback_hit (w : World Point) m :
  indexeddb w !! model_key (modelTypeId w) = Some m →
  loadButtonCallback env w
  = (Returned tt,
     called [ModelSummary m]
       (set_model (Some m)
          (called [ConsoleLog (model_number (modelTypeId w));
                   LoadModel (model_key (modelTypeId w))]
             (called [LogStatus "Creating model..."]
                (set_data true
                   (called [LoadMnistData]
                      (called [LogStatus "Loading MNIST data..."] w))))))).
Proof.
  intros Hdb. unfold loadButtonCallback, call.
  rewrite bind_modify, (bind_run _ _ _ _ _ (load_run _)), bind_modify.
  erewrite try_catch_returned; [done|].
  rewrite load_try_run.
  change (indexeddb (called _ (set_data _ (called _ (called _ w)))))
    with (indexeddb w).
  change (modelTypeId (called _ (set_data _ (called _ (called _ w)))))
    with (modelTypeId w).
  by rewrite Hdb.
Qed.

(** The load button when nothing is stored under that key and the model type
    is valid, run. *)
Lemma loadButtonCallback_miss (w : World Point) m :
  indexeddb w !! model_key (modelTypeId w) = None →
  createModel env w = (Returned m, w) →
  loadButtonCallback env w
  = (Returned tt,
     called (predictions_shown env (fitted m))
       (stored "indexeddb://my-model-1" (fitted m)
          (called [SaveModel "indexeddb://my-model-1" (fitted m)]
             (set_model (Some (fitted m))
                (called [LogStatus "Training model..."; Train m]
                   (called [LogStatus "Starting model training..."]
                      (called [ModelSummary m]
                         (set_model (Some m)
                            (called [ConsoleLog (model_number (modelTypeId w));
                                     LoadModel (model_key (modelTypeId w))]
                               (called [LogStatus "Creating model..."]
                                  (set_data true
                                     (called [LoadMnistData]
                                        (called [LogStatus "Loading MNIST data..."]
                                           w))))))))))))).
Proof.
  intros Hdb Hcreate. unfold loadButtonCallback, call.
  rewrite bind_modify, (bind_run _ _ _ _ _ (load_run _)), bind_modify.
  erewrite try_catch_thrown; cycle 1.
  { rewrite load_try_run.
    change (indexeddb (called _ (set_data _ (called _ (called _ w)))))
      with (indexeddb w).
    change (modelTypeId (called _ (set_data _ (called _ (called _ w)))))
      with (modelTypeId w).
    by rewrite Hdb. }
  erewrite bind_run; cycle 1.
  { rewrite (createModel_frame w) by reflexivity. by rewrite Hcreate. }
  rewrite bind_modify.
  erewrite bind_run by (by apply model_summary_run).
  rewrite bind_modify.
  erewrite bind_run by (by apply train_run).
  erewrite bind_run by (by apply model_save_run).
  by apply showPredictions_detached.
Qed.

(** The train button with a model type that [createModel] refuses, run. *)
Lemma trainButtonCallback_invalid (w : World Point) :
  modelTypeId w ≠ "ConvNet" →
  modelTypeId w ≠ "DenseNet" →
  trainButtonCallback env w
  = (Thrown (Error ("Invalid model type: " +:+ modelTypeId w)),
     called [LogStatus "Creating model..."]
       (set_data true
          (called [LoadMnistData]
             (called [LogStatus "Loading MNIST data..."] w)))).
Proof.
  intros H1 H2. unfold trainButtonCallback, call.
  rewrite bind_modify, (bind_run _ _ _ _ _ (load_run _)), bind_gets, bind_modify.
  erewrite bind_thrown; [done|].
  by rewrite createModel_invalid.
Qed.

(** The load button when nothing is stored under the key it reads and
    [createModel] refuses the model type, run. *)
Lemma loadButtonCallback_invalid (w : World Point) :
  indexeddb w !! model_key (modelTypeId w) = None →
  modelTypeId w ≠ "ConvNet" →
  modelTypeId w ≠ "DenseNet" →
  loadButtonCallback env w
  = (Thrown (Error ("Invalid model type: " +:+ modelTypeId w)),
     called [ConsoleLog (model_number (modelTypeId w));
             LoadModel (model_key (modelTypeId w))]
       (called [LogStatus "Creating model..."]
          (set_data true
             (called [LoadMnistData]
                (called [LogStatus "Loading MNIST data..."] w))))).
Proof.
  intros Hdb H1 H2. unfold loadButtonCallback, call.
  rewrite bind_modify, (bind_run _ _ _ _ _ (load_run _)), bind_modify.
  erewrite try_catch_thrown; cycle 1.
  { rewrite load_try_run.
    change (indexeddb (called _ (set_data _ (called _ (called _ w)))))
      with (indexeddb w).
    change (modelTypeId (called _ (set_data _ (called _ (called _ w)))))
      with (modelTypeId w).
    by rewrite Hdb. }
  erewrite bind_thrown; [done|].
  by rewrite createModel_invalid.
Qed.

(** The trace of a world built from calls and assignments, flattened. *)
Ltac flat_trace :=
  lazy beta iota zeta delta
    [trace called set_trace set_model set_data stored set_indexeddb fst snd];
  rewrite <- ?app_assoc; cbn [app].

(** X8. The train button with a valid model type selected: it returns, the
    global model is the created model after fitting, the data is loaded, that
    model is stored under the key of the selected type (my-model-1 for
    ConvNet, my-model-2 otherwise) and every other entry of the store is as
    before, the canvases and the strokes are untouched, and the calls made
    are, in this order: the two status lines and the data load, the summary
    of the new model, the training, the save, and the test predictions.  The
    training is one entry of the trace: the progress and accuracy messages
    inside [train] are not recorded. *)
Theorem train_button_saves_by_type (w : World Point) (m : Model) :
  createModel env w = (Returned m, w) →
  let r := trainButtonCallback env w in
  r.1 = Returned tt
  ∧ model r.2 = Some (fitted m)
  ∧ data r.2 = true
  ∧ indexeddb r.2 = <[model_key (modelTypeId w) := fitted m]> (indexeddb w)
  ∧ canvas_store r.2 = canvas_store w
  ∧ dom r.2 = dom w
  ∧ modelTypeId r.2 = modelTypeId w
  ∧ trace r.2
    = trace w
      ++ [LogStatus "Loading MNIST data..."; LoadMnistData;
          LogStatus "Creating model..."; ModelSummary m;
          LogStatus "Starting model training...";
          LogStatus "Training model..."; Train m;
          ConsoleLog (model_number (modelTypeId w));
          SaveModel (model_key (modelTypeId w)) (fitted m)]
      ++ predictions_shown env (fitted m).
Proof.
  intros Hcreate r. subst r. rewrite (trainButtonCallback_run w m Hcreate).
  split_and!; try reflexivity.
  flat_trace. reflexivity.
Qed.

(** X9. The load button when a model is stored under the key of the selected
    type: the stored model becomes the global model as it is, nothing is
    created, trained, saved or predicted, the store is unchanged, and the
    selected type is not validated (any type other than ConvNet reads
    my-model-2). *)
Theorem load_button_uses_stored_model (w : World Point) (m : Model) :
  indexeddb w !! model_key (modelTypeId w) = Some m →
  let r := loadButtonCallback env w in
  r.1 = Returned tt
  ∧ model r.2 = Some m
  ∧ data r.2 = true
  ∧ indexeddb r.2 = indexeddb w
  ∧ canvas_store r.2 = canvas_store w
  ∧ dom r.2 = dom w
  ∧ trace r.2
    = trace w
      ++ [LogStatus "Loading MNIST data..."; LoadMnistData;
          LogStatus "Creating model...";
          ConsoleLog (model_number (modelTypeId w));
          LoadModel (model_key (modelTypeId w));
          ModelSummary m].
Proof.
  intros Hdb r. subst r. rewrite (loadButtonCallback_hit w m Hdb).
  split_and!; try reflexivity.
  flat_trace. reflexivity.
Qed.

(** X10. The load button when nothing is stored under the key of the selected
    type and the type is valid: the failed load is caught, the model of the
    selected type is created, summarised, trained and saved, always under
    my-model-1, replacing whatever was stored there and leaving every other
    key as it was, and the test predictions are shown.  The training is one
    entry of the trace, as for the train button. *)
Theorem load_button_falls_back (w : World Point) (m : Model) :
  indexeddb w !! model_key (modelTypeId w) = None →
  createModel env w = (Returned m, w) →
  let r := loadButtonCallback env w in
  r.1 = Returned tt
  ∧ model r.2 = Some (fitted m)
  ∧ data r.2 = true
  ∧ indexeddb r.2 = <["indexeddb://my-model-1" := fitted m]> (indexeddb w)
  ∧ canvas_store r.2 = canvas_store w
  ∧ dom r.2 = dom w
  ∧ trace r.2
    = trace w
      ++ [LogStatus "Loading MNIST data..."; LoadMnistData;
          LogStatus "Creating model...";
          ConsoleLog (model_number (modelTypeId w));
          LoadModel (model_key (modelTypeId w));
          ModelSummary m;
          LogStatus "Starting model training...";
          LogStatus "Training model..."; Train m;
          SaveModel "indexeddb://my-model-1" (fitted m)]
      ++ predictions_shown env (fitted m).
Proof.
  intros Hdb Hcreate r. subst r.
  rewrite (loadButtonCallback_miss w m Hdb Hcreate).
  split_and!; try reflexivity.
  flat_trace. reflexivity.
Qed.

(** X11. Train, then load: after the train button has run with a valid model
    type, the load button with the same type selected finds the model the
    train button stored, makes it the global model without creating or
    training anything, and leaves the store as the train button left it. *)
Theorem train_then_load (w : World Point) (m : Model) :
  createModel env w = (Returned m, w) →
  let w1 := (trainButtonCallback env w).2 in
  let r := loadButtonCallback env w1 in
  r.1 = Returned tt
  ∧ model r.2 = Some (fitted m)
  ∧ indexeddb r.2 = indexeddb w1
  ∧ trace r.2
    = trace w1
      ++ [LogStatus "Loading MNIST data..."; LoadMnistData;
          LogStatus "Creating model...";
          ConsoleLog (model_number (modelTypeId w));
          LoadModel (model_key (modelTypeId w));
          ModelSummary (fitted m)].
Proof.
  intros Hcreate w1 r.
  assert (Hdb : indexeddb w1 !! model_key (modelTypeId w1) = Some (fitted m)).
  { subst w1. rewrite (trainButtonCallback_run w m Hcreate).
    apply (lookup_insert_eq (indexeddb w)). }
  assert (Ht : modelTypeId w1 = modelTypeId w).
  { subst w1. by rewrite (trainButtonCallback_run w m Hcreate). }
  subst r. rewrite (loadButtonCallback_hit w1 (fitted m) Hdb), Ht.
  split_and!; try reflexivity.
  flat_trace. reflexivity.
Qed.

(** X12. A model type that is neither ConvNet nor DenseNet.  The train button
    ends in the exception of [createModel] after the data load: no model is
    set, nothing is trained or stored.  The load button reads my-model-2: when
    a model is stored there it is loaded and the type is never looked at;
    when not, the exception of [createModel] leaves the [catch] block, with
    no model set and nothing stored. *)
Theorem invalid_model_type (w : World Point) :
  modelTypeId w ≠ "ConvNet" →
  modelTypeId w ≠ "DenseNet" →
  let bad := Error ("Invalid model type: " +:+ modelTypeId w) in
  let t := trainButtonCallback env w in
  let l := loadButtonCallback env w in
  (t.1 = Thrown bad
   ∧ model t.2 = model w ∧ data t.2 = true ∧ indexeddb t.2 = indexeddb w
   ∧ trace t.2
     = trace w ++ [LogStatus "Loading MNIST data..."; LoadMnistData;
                   LogStatus "Creating model..."])
  ∧ (∀ m, indexeddb w !! "indexeddb://my-model-2" = Some m →
          l.1 = Returned tt ∧ model l.2 = Some m)
  ∧ (indexeddb w !! "indexeddb://my-model-2" = None →
     l.1 = Thrown bad
     ∧ model l.2 = model w ∧ data l.2 = true ∧ indexeddb l.2 = indexeddb w
     ∧ trace l.2
       = trace w ++ [LogStatus "Loading MNIST data..."; LoadMnistData;
                     LogStatus "Creating model..."; ConsoleLog 2;
                     LoadModel "indexeddb://my-model-2"]).
Proof.
  intros H1 H2 bad t l.
  assert (Hk : model_key (modelTypeId w) = "indexeddb://my-model-2")
    by (unfold model_key; by rewrite decide_False).
  assert (Hn : model_number (modelTypeId w) = 2)
    by (unfold model_number; by rewrite decide_False).
  split; [|split].
  - subst t. rewrite (trainButtonCallback_invalid w H1 H2).
    split_and!; try reflexivity. flat_trace. reflexivity.
  - intros m Hdb. rewrite <- Hk in Hdb.
    subst l. by rewrite (loadButtonCallback_hit w m Hdb).
  - intros Hdb. rewrite <- Hk in Hdb.
    subst l. rewrite (loadButtonCallback_invalid w Hdb H1 H2), Hk, Hn.
    split_and!; try reflexivity. flat_trace. reflexivity.
Qed.

End ButtonTheorems.

(** ** What a pointer-move leaves alone, and the debounced burst *)

Section BurstTheorems.

Context {Point PointerEvent : Type} (env : Env Point PointerEvent).

Section Stays.

Context (Q : World Point → Prop).

Lemma stays_bind {A B} (m : M Point A) (k : A → M Point B) :
  stays Q m → (∀ a, stays Q (k a)) → stays Q (m ≫= k).
Proof.
  intros Hm Hk w HQ. specialize (Hm w HQ).
  unfold mbind, M_bind, bind. destruct (m w) as [[a| |] w']; try done.
  by apply Hk.
Qed.

Lemma stays_same {A} (m : M Point A) :
  (∀ w, (m w).2 = w) → stays Q m.
Proof. intros Hm w HQ. by rewrite Hm. Qed.

Lemma stays_lift {A} (c : completion A) : stays Q (lift c : M Point A).
Proof. apply stays_same. intros w. by destruct c. Qed.

Lemma stays_getImageData (id : CanvasId) : stays Q (ctx_getImageData env id).
Proof.
  apply stays_same. intros w. unfold ctx_getImageData.
  by destruct (getImageData env (dom w) id).
Qed.

Lemma stays_modify (g : World Point → World Point) :
  (∀ w, Q w → Q (g w)) → stays Q (modify g).
Proof. intros Hg w HQ. by apply Hg. Qed.

Lemma stays_while {St} (fuel : nat) (cond : St → bool) (body : St → M Point St) :
  (∀ s, stays Q (body s)) → ∀ s, stays Q (while fuel cond body s).
Proof.
  intros Hbody. induction fuel as [|fuel IH]; intros s; simpl.
  - intros w HQ. by destruct (cond s).
  - destruct (cond s); [|by intros w HQ]. apply stays_bind; [apply Hbody | apply IH].
Qed.

End Stays.

(** A statement is taken apart down to the writes it makes. *)
Ltac stays_step :=
  lazymatch goal with
  | |- stays _ (_ ≫= _) => apply stays_bind; [|intros ?]
  | |- stays _ (lift _) => apply stays_lift
  | |- stays _ (ctx_getImageData _ _) => apply stays_getImageData
  | |- stays _ (while _ _ _ _) => apply stays_while; intros ?
  | |- stays _ (modify _) => apply stays_modify
  | |- stays _ (mret _) => apply stays_same; intros ?; reflexivity
  | |- stays _ (throw _) => apply stays_same; intros ?; reflexivity
  | |- stays _ (gets _) => apply stays_same; intros ?; reflexivity
  | |- stays _ out_of_fuel => apply stays_same; intros ?; reflexivity
  | |- stays _ (match ?x with _ => _ end) => destruct x
  end.

Ltac stays_all :=
  repeat stays_step;
  try (intros; first [assumption | reflexivity]).

Lemma draw_stays (e : PointerEvent) (F : DrawFrame Point) :
  stays (fun w => draw_frame w = F) (draw env e).
Proof.
  unfold draw, draw_stroke, curve_step, spread, call_getMidpoint,
    set_strokes, ctx.
  stays_all.
Qed.

(** X13. A pointer-move changes nothing but the strokes and the commands on
    the drawing canvas, also when it ends in an exception: it makes no call
    out of the page, and the model, the data, the model store, the selected
    type, the drawing flag, the two other canvases and the size of the
    drawing canvas are as before. *)
Theorem draw_changes_only_the_drawing (e : PointerEvent) (w : World Point) :
  let w' := (draw env e w).2 in
  trace w' = trace w
  ∧ model w' = model w
  ∧ data w' = data w
  ∧ indexeddb w' = indexeddb w
  ∧ modelTypeId w' = modelTypeId w
  ∧ drawing (canvas_store w') = drawing (canvas_store w)
  ∧ cv_centercrop (dom w') = cv_centercrop (dom w)
  ∧ cv_scaled (dom w') = cv_scaled (dom w)
  ∧ cv_width (cv_input (dom w')) = cv_width (cv_input (dom w))
  ∧ cv_height (cv_input (dom w')) = cv_height (cv_input (dom w)).
Proof.
  intros w'. pose proof (draw_stays e (draw_frame w) w eq_refl) as H.
  fold w' in H. unfold draw_frame in H.
  injection H as -> -> -> -> -> -> -> -> -> ->. by split_and!.
Qed.

Lemma draw_trace (e : PointerEvent) (w : World Point) :
  trace (draw env e w).2 = trace w.
Proof.
  pose proof (draw_stays e (draw_frame w) w eq_refl) as H.
  unfold draw_frame in H. by injection H.
Qed.

(** No event calls [predict] at once. *)
Lemma immediate_predict_calls (w : World Point) (i : Input PointerEvent) :
  predict_calls (trace (immediate env w i)) = predict_calls (trace w).
Proof.
  destruct i as [e|e|e|]; cbn [immediate]; [| | done |].
  - by rewrite run_handler_predict_calls.
  - by rewrite run_handler_predict_calls, draw_trace.
  - by rewrite run_handler_predict_calls.
Qed.

Lemma run_immediate_predict_calls (l : list (Z * Input PointerEvent)) :
  ∀ w, predict_calls (trace (run_immediate env w l)) = predict_calls (trace w).
Proof.
  induction l as [|ti l IH]; intros w; [done|].
  unfold run_immediate in *. cbn [foldl].
  by rewrite IH, immediate_predict_calls.
Qed.

(** The invocation the timer holds when [up] was the last pointer-up. *)
Lemma dispatch_in_window (w : World Point)
    (up : option (Z * PointerEvent)) (ti : Z * Input PointerEvent) :
  match fst <$> up with
  | Some t => (ti.1 < t + debounce_wait)%Z
  | None => True
  end →
  dispatch env (mkPage w ((fun te => (te.1 + debounce_wait, te.2)%Z) <$> up)) ti
  = mkPage (immediate env w ti.2)
      ((fun te => (te.1 + debounce_wait, te.2)%Z) <$> later_up up ti).
Proof.
  intros Ht. destruct ti as [t i]. unfold dispatch, advance, later_up.
  destruct up as [[t0 e0]|]; cbn in *.
  - case_decide; [lia|]. by destruct i.
  - by destruct i.
Qed.

(** The events of a burst run their handlers at once and never the debounced
    one; the timer holds the invocation of the last pointer-up. *)
Lemma run_inputs_in_window (l : list (Z * Input PointerEvent)) :
  ∀ (w : World Point) (up : option (Z * PointerEvent)),
    in_burst (fst <$> up) l →
    run_inputs env (mkPage w ((fun te => (te.1 + debounce_wait, te.2)%Z) <$> up)) l
    = mkPage (run_immediate env w l)
        ((fun te => (te.1 + debounce_wait, te.2)%Z) <$> foldl later_up up l).
Proof.
  induction l as [|ti l IH]; intros w up Hb; [done|].
  destruct Hb as [Ht Hb].
  unfold run_inputs, run_immediate in *. cbn [foldl].
  rewrite dispatch_in_window by done.
  apply IH. unfold later_up. by destruct ti as [t []], up as [[]|].
Qed.

(** C9, as the code has it. A burst of events with at least one pointer-up
    among them, pointer-downs, pointer-moves and clears in between or after,
    every event less than the wait after the pointer-up before it, starting
    with no invocation pending.  The other events run their handlers at once
    and leave the timer alone; every pointer-up puts the invocation off; no
    inference call is made during the burst.  Before the wait has passed since
    the last pointer-up nothing runs; once it has, the handler has run exactly
    once, with the event of the last pointer-up, on the world as the last
    event of the burst left it, and it does not run again.  That run calls
    [predict] at most once: not at all when no stroke is open, and exactly
    once, on the encoded raster, when the pipeline is ready. *)
Theorem debounced_burst (p : Page Point PointerEvent)
    (l : list (Z * Input PointerEvent)) (tN : Z) (eN : PointerEvent) (T : Z) :
  pending p = None →
  in_burst None l →
  last_pointer_up l = Some (tN, eN) →
  (tN + debounce_wait ≤ T)%Z →
  let q := run_inputs env p l in
  let wN := run_immediate env (world p) l in
  q = mkPage wN (Some (tN + debounce_wait, eN)%Z)
  ∧ predict_calls (trace wN) = predict_calls (trace (world p))
  ∧ (∀ T', (T' < tN + debounce_wait)%Z → advance env T' q = q)
  ∧ advance env T q
    = mkPage (run_handler (deactivateDrawAndPredict env eN) wN) None
  ∧ (∀ T', advance env T' (advance env T q) = advance env T q)
  ∧ predict_calls (trace (world (advance env T q)))
    ≤ predict_calls (trace (world p)) + 1
  ∧ (drawing (canvas_store wN) = false →
     world (advance env T q) = wN)
  ∧ (∀ m scaled,
       pipeline_ready env wN m scaled →
       predict_calls (trace (world (advance env T q)))
       = predict_calls (trace (world p)) + 1
       ∧ Predict m (input_tensor scaled) ∈ trace (world (advance env T q))).
Proof.
  intros Hp Hb Hlast HT q wN.
  assert (Hcalls : predict_calls (trace wN) = predict_calls (trace (world p)))
    by apply run_immediate_predict_calls.
  assert (Hq : q = mkPage wN (Some (tN + debounce_wait, eN)%Z)).
  { subst q wN. destruct p as [w pend]. cbn [pending world] in *. subst pend.
    pose proof (run_inputs_in_window l w None Hb) as Hrun.
    unfold last_pointer_up in Hlast. rewrite Hlast in Hrun. exact Hrun. }
  assert (Hadv : advance env T q
            = mkPage (run_handler (deactivateDrawAndPredict env eN) wN) None).
  { rewrite Hq. unfold advance. cbn [pending world]. by case_decide. }
  split_and!; [done | done | | done | | | |].
  - intros T' HT'. rewrite Hq. unfold advance. cbn [pending].
    case_decide; [lia | done].
  - intros T'. by rewrite Hadv.
  - rewrite Hadv. cbn [world].
    rewrite run_handler_predict_calls, deactivateDrawAndPredict_run, <- Hcalls.
    apply pointer_up_run_calls.
  - intros Hd. rewrite Hadv. cbn [world].
    unfold run_handler, detached.
    rewrite deactivateDrawAndPredict_run.
    by rewrite (proj2 (pointer_up_run_calls env wN) Hd).
  - intros m scaled Hready. rewrite Hadv. cbn [world].
    destruct (pointer_up_run_ready env wN m scaled Hready) as [Ho Ht].
    split.
    + rewrite run_handler_predict_calls, deactivateDrawAndPredict_run, Ht, <- Hcalls.
      unfold predict_calls. rewrite List.filter_app, length_app.
      destruct (predict env m (input_tensor scaled)); simpl; lia.
    + unfold run_handler, detached.
      rewrite deactivateDrawAndPredict_run.
      destruct (pointer_up_run env wN) as [o w'] eqn:Hrun.
      cbn [fst snd] in Ho, Ht.
      assert (Predict m (input_tensor scaled) ∈ trace w')
        by (rewrite Ht; set_solver).
      destruct o; cbn [snd]; [done | | done].
      cbn. set_solver.
Qed.

End BurstTheorems.

(** ** The sessions, the buttons and the burst at the concrete page *)

(** Two strokes drawn within one debounce window: a pointer-down, a
    pointer-move and a pointer-up, twice, and a last pointer-move after the
    second pointer-up. *)
Lemma two_stroke_burst_ready :
  pipeline_ready demo_env
    (run_immediate demo_env trained_world
       [ (0, PointerDown (10, 10)); (10, PointerMove (20, 20));
         (20, PointerUp (20, 20)); (100, PointerDown (30, 30));
         (110, PointerMove (40, 40)); (150, PointerUp (40, 40));
         (200, PointerMove (41, 41)) ]%Z)
    trained_model transparent28.
Proof.
  split_and!; [vm_compute; reflexivity | vm_compute; reflexivity |].
  exists (uniform_raster 56 56 x00 x00 x00 x00), (uniform_raster 56 56 x00 x00 x00 x00).
  split_and!; vm_compute; reflexivity.
Defined.

Lemma debounced_burst_witness :
  pending trained_page = None
  ∧ in_burst None
      [ (0, PointerDown (10, 10)); (10, PointerMove (20, 20));
        (20, PointerUp (20, 20)); (100, PointerDown (30, 30));
        (110, PointerMove (40, 40)); (150, PointerUp (40, 40));
        (200, PointerMove (41, 41)) ]%Z
  ∧ last_pointer_up
      [ (0, PointerDown (10, 10)); (10, PointerMove (20, 20));
        (20, PointerUp (20, 20)); (100, PointerDown (30, 30));
        (110, PointerMove (40, 40)); (150, PointerUp (40, 40));
        (200, PointerMove (41, 41)) ]%Z
    = Some (150, (40, 40))%Z
  ∧ (150 + debounce_wait ≤ 350)%Z
  ∧ predict_calls
      (trace (world (advance demo_env 350
                       (run_inputs demo_env trained_page
                          [ (0, PointerDown (10, 10)); (10, PointerMove (20, 20));
                            (20, PointerUp (20, 20)); (100, PointerDown (30, 30));
                            (110, PointerMove (40, 40)); (150, PointerUp (40, 40));
                            (200, PointerMove (41, 41)) ]%Z))))
    = predict_calls (trace trained_world) + 1.
Proof.
  assert (Hp : pending trained_page = None) by reflexivity.
  assert (Hb : in_burst None
                 [ (0, PointerDown (10, 10)); (10, PointerMove (20, 20));
                   (20, PointerUp (20, 20)); (100, PointerDown (30, 30));
                   (110, PointerMove (40, 40)); (150, PointerUp (40, 40));
                   (200, PointerMove (41, 41)) ]%Z)
    by (vm_compute; intuition discriminate).
  assert (Hl : last_pointer_up
                 [ (0, PointerDown (10, 10)); (10, PointerMove (20, 20));
                   (20, PointerUp (20, 20)); (100, PointerDown (30, 30));
                   (110, PointerMove (40, 40)); (150, PointerUp (40, 40));
                   (200, PointerMove (41, 41)) ]%Z
               = Some (150, (40, 40))%Z) by reflexivity.
  assert (HT : (150 + debounce_wait ≤ 350)%Z) by (vm_compute; discriminate).
  split_and!; [exact Hp | exact Hb | exact Hl | exact HT |].
  destruct (debounced_burst demo_env trained_page _ 150%Z (40, 40)%Z 350%Z
              Hp Hb Hl HT)
    as (_ & _ & _ & _ & _ & _ & _ & Hready).
  exact (proj1 (Hready trained_model transparent28 two_stroke_burst_ready)).
Defined.

Lemma fresh_session_ok : session_ok (canvas_store fresh_world).
Proof. split; [constructor | discriminate]. Qed.

Lemma fresh_createModel :
  createModel demo_env fresh_world
  = (Returned (createConvModel demo_env), fresh_world).
Proof. reflexivity. Qed.

Lemma canvas_session_invariant_witness :
  session_ok (canvas_store fresh_world)
  ∧ session_ok
      (canvas_store
         (run_canvas demo_env fresh_world
            [CallActivateDraw (1, 2)%Z; CallDraw (3, 4)%Z;
             CallDeactivateDrawAndPredict (3, 4)%Z; CallDraw (5, 6)%Z;
             CallClear; CallDraw (7, 8)%Z])).
Proof.
  split; [exact fresh_session_ok|].
  exact (proj1 (canvas_session_invariant demo_env fresh_world _ fresh_session_ok)).
Defined.

Lemma gesture_records_points_witness :
  session_ok (canvas_store fresh_world)
  ∧ canvas_store
      (run_canvas demo_env fresh_world (gesture (1, 2)%Z [(3, 4)%Z; (5, 6)%Z]))
    = mkCanvasStore [[(1, 2)%Z; (3, 4)%Z; (5, 6)%Z]] true.
Proof.
  split; [exact fresh_session_ok|].
  exact (gesture_records_points demo_env fresh_world (1, 2)%Z
           [(3, 4)%Z; (5, 6)%Z] fresh_session_ok).
Defined.

Lemma train_button_saves_by_type_witness :
  createModel demo_env fresh_world
  = (Returned (createConvModel demo_env), fresh_world)
  ∧ model (trainButtonCallback demo_env fresh_world).2 = Some trained_model
  ∧ indexeddb (trainButtonCallback demo_env fresh_world).2
    = {["indexeddb://my-model-1" := trained_model]}.
Proof.
  split; [exact fresh_createModel|].
  destruct (train_button_saves_by_type demo_env fresh_world _ fresh_createModel)
    as (_ & Hm & _ & Hdb & _).
  split; [exact Hm|]. rewrite Hdb. reflexivity.
Defined.

Lemma load_button_uses_stored_model_witness :
  indexeddb trained_world !! model_key (modelTypeId trained_world)
  = Some trained_model
  ∧ model (loadButtonCallback demo_env trained_world).2 = Some trained_model
  ∧ indexeddb (loadButtonCallback demo_env trained_world).2
    = indexeddb trained_world.
Proof.
  assert (H : indexeddb trained_world !! model_key (modelTypeId trained_world)
              = Some trained_model) by (vm_compute; reflexivity).
  split; [exact H|].
  destruct (load_button_uses_stored_model demo_env trained_world _ H)
    as (_ & Hm & _ & Hdb & _).
  split; [exact Hm | exact Hdb].
Defined.

Lemma load_button_falls_back_witness :
  indexeddb fresh_world !! model_key (modelTypeId fresh_world) = None
  ∧ createModel demo_env fresh_world
    = (Returned (createConvModel demo_env), fresh_world)
  ∧ model (loadButtonCallback demo_env fresh_world).2 = Some trained_model
  ∧ indexeddb (loadButtonCallback demo_env fresh_world).2
    = {["indexeddb://my-model-1" := trained_model]}.
Proof.
  assert (H : indexeddb fresh_world !! model_key (modelTypeId fresh_world) = None)
    by (vm_compute; reflexivity).
  split; [exact H|]. split; [exact fresh_createModel|].
  destruct (load_button_falls_back demo_env fresh_world _ H fresh_createModel)
    as (_ & Hm & _ & Hdb & _).
  split; [exact Hm|]. rewrite Hdb. reflexivity.
Defined.

Lemma train_then_load_witness :
  createModel demo_env fresh_world
  = (Returned (createConvModel demo_env), fresh_world)
  ∧ model (loadButtonCallback demo_env
             (trainButtonCallback demo_env fresh_world).2).2
    = Some trained_model.
Proof.
  split; [exact fresh_createModel|].
  exact (proj1 (proj2 (train_then_load demo_env fresh_world _ fresh_createModel))).
Defined.

Lemma invalid_model_type_witness :
  modelTypeId (set_modelTypeId "LSTM" fresh_world) ≠ "ConvNet"
  ∧ modelTypeId (set_modelTypeId "LSTM" fresh_world) ≠ "DenseNet"
  ∧ (trainButtonCallback demo_env (set_modelTypeId "LSTM" fresh_world)).1
    = Thrown (Error "Invalid model type: LSTM")
  ∧ (loadButtonCallback demo_env (set_modelTypeId "LSTM" fresh_world)).1
    = Thrown (Error "Invalid model type: LSTM").
Proof.
  assert (H1 : modelTypeId (set_modelTypeId "LSTM" fresh_world) ≠ "ConvNet")
    by discriminate.
  assert (H2 : modelTypeId (set_modelTypeId "LSTM" fresh_world) ≠ "DenseNet")
    by discriminate.
  split; [exact H1|]. split; [exact H2|].
  destruct (invalid_model_type demo_env (set_modelTypeId "LSTM" fresh_world) H1 H2)
    as ((Ht & _) & _ & Hl).
  split; [exact Ht|]. apply Hl. vm_compute. reflexivity.
Defined.
